(** * A shallow embedding of the manifest store, the package-manager
    detection and the generator naming of expo-genie-cli.

    Sources: src/src/utils/fs.ts, src/src/utils/config.ts,
    src/src/utils/packageManager.ts, src/src/commands/add.ts,
    src/unnamed/part_003 (BaseGenerator), src/unnamed/part_001
    (ScreenGenerator). *)

From Stdlib Require Import String Ascii List Bool Arith Lia ZArith.
From Stdlib Require Import Numbers.DecimalString.
Import ListNotations.
Open Scope string_scope.
Open Scope list_scope.

(* ================================================================= *)
(** ** JavaScript values as they come out of [JSON.parse]              *)
(* ================================================================= *)

Set Warnings "-register-all".

(** A JSON document.  An object is its list of members in source order;
    a key may occur twice in the text, and, as [JSON.parse] does, the
    last occurrence is the one property access sees. *)
Inductive json : Type :=
| JNull
| JBool (b : bool)
| JNum (n : Z)
| JStr (s : string)
| JArr (xs : list json)
| JObj (members : list (string * json)).

Definition members := list (string * json).

(** [o[k]] on the members of an object: last occurrence wins. *)
Fixpoint lookup (k : string) (l : members) : option json :=
  match l with
  | [] => None
  | (k', v) :: r =>
      match lookup k r with
      | Some x => Some x
      | None => if String.eqb k k' then Some v else None
      end
  end.

(** Property read [v.k]; [None] is [undefined].  Only objects carry
    the properties the code reads. *)
Definition get (k : string) (v : json) : option json :=
  match v with
  | JObj l => lookup k l
  | _ => None
  end.

(** [o[k] = v] on an object: an existing property keeps its position and
    takes the new value, a new one is appended (insertion order). *)
Definition obj_set (k : string) (v : json) (l : members) : members :=
  if existsb (fun kv => String.eqb (fst kv) k) l
  then map (fun kv => if String.eqb (fst kv) k then (k, v) else kv) l
  else l ++ [(k, v)].

(** Decimal rendering of an array or string index. *)
Definition index_key (i : nat) : string :=
  NilEmpty.string_of_uint (Nat.to_uint i).

Fixpoint indexed {A} (f : A -> json) (i : nat) (xs : list A) : members :=
  match xs with
  | [] => []
  | x :: r => (index_key i, f x) :: indexed f (S i) r
  end.

Fixpoint chars (s : string) : list ascii :=
  match s with
  | EmptyString => []
  | String c r => c :: chars r
  end.

(** The own enumerable properties that object spread [{...v}] copies:
    the members of an object, the indices of an array or a string,
    nothing for [null], booleans and numbers. *)
Definition own_props (v : json) : members :=
  match v with
  | JObj l => l
  | JArr xs => indexed (fun x => x) 0 xs
  | JStr s => indexed (fun c => JStr (String c EmptyString)) 0 (chars s)
  | _ => []
  end.

Definition spread_into (acc : members) (v : json) : members :=
  fold_left (fun a kv => obj_set (fst kv) (snd kv) a) (own_props v) acc.

(** The object literal [{ ...v1, ...v2, ... }]. *)
Definition spread (vs : list json) : json :=
  JObj (fold_left spread_into vs []).

(** JavaScript truthiness of a parsed value ([if (existing)]). *)
Definition truthy (v : json) : bool :=
  match v with
  | JNull => false
  | JBool b => b
  | JNum n => negb (Z.eqb n 0)
  | JStr s => negb (String.eqb s "")
  | JArr _ | JObj _ => true
  end.

(* ================================================================= *)
(** ** The file system and the effect monad                             *)
(* ================================================================= *)

(** What [fs.readJson] finds in a file: a document, or text that
    [JSON.parse] rejects. *)
Inductive content : Type :=
| Doc (j : json)
| Unparsable.

(** The files on disk, by path.  Directories are created on demand by
    [fs.ensureDir] and are not tracked. *)
Definition store := string -> option content.

Definition upd (st : store) (p : string) (c : content) : store :=
  fun q => if String.eqb q p then Some c else st q.

(** An async function of the program: it runs against the disk and
    either resolves with a value or rejects with a message. *)
Definition io (A : Type) := store -> (string + A) * store.

Definition ret {A} (a : A) : io A := fun st => (inr a, st).
Definition throw {A} (msg : string) : io A := fun st => (inl msg, st).
Definition bind {A B} (m : io A) (k : A -> io B) : io B :=
  fun st => match m st with
            | (inl e, st') => (inl e, st')
            | (inr a, st') => k a st'
            end.

Notation "x <- m ;; k" := (bind m (fun x => k))
  (at level 61, m at next level, right associativity).
Notation "m ;; k" := (bind m (fun _ => k))
  (at level 61, right associativity).

(** [path.join] of two segments (no normalisation is modelled). *)
Definition path_join (a b : string) : string := (a ++ "/" ++ b)%string.

(** *** fileSystem (src/src/utils/fs.ts) *)
Module fileSystem.

Definition fileExists (p : string) : io bool :=
  fun st => (inr (match st p with Some _ => true | None => false end), st).

Definition readJson (p : string) : io json :=
  fun st => match st p with
            | Some (Doc j) => (inr j, st)
            | _ => (inl ("Failed to read JSON file: " ++ p)%string, st)
            end.

Definition writeJson (p : string) (data : json) : io unit :=
  fun st => (inr tt, upd st p (Doc data)).

Definition createDirectory (p : string) : io unit := ret tt.

(** [fs.writeFile] of a text, seen as [readJson] would read it back:
    [c] is what [JSON.parse] makes of the text written. *)
Definition writeFile (p : string) (c : content) : io unit :=
  fun st => (inr tt, upd st p c).

(** [fs.remove]: the path and everything below it are gone; a missing
    path is not an error. *)
Definition deleteDirectory (p : string) : io unit :=
  fun st => (inr tt, fun q => if String.eqb q p || String.prefix (p ++ "/") q
                              then None else st q).

End fileSystem.

(* ================================================================= *)
(** ** The manifest and global-config shapes (config.ts, lines 5-63)   *)
(* ================================================================= *)

(** Partial decoding of a parsed document into the typed shapes. *)
Notation "x <-? m ;? k" :=
  (match m with Some x => k | None => None end)
  (at level 61, m at next level, right associativity).

Definition as_bool (v : option json) : option bool :=
  match v with Some (JBool b) => Some b | _ => None end.
Definition as_str (v : option json) : option string :=
  match v with Some (JStr s) => Some s | _ => None end.

Fixpoint strs_of (xs : list json) : option (list string) :=
  match xs with
  | [] => Some []
  | JStr s :: r => t <-? strs_of r ;? Some (s :: t)
  | _ :: _ => None
  end.
Definition as_strs (v : option json) : option (list string) :=
  match v with Some (JArr xs) => strs_of xs | _ => None end.

Definition strs (l : list string) : json := JArr (map JStr l).

(** A [{ [key: string]: T }] map, kept as its entries in order. *)
Fixpoint entries_of {A} (f : json -> option A) (l : members)
  : option (list (string * A)) :=
  match l with
  | [] => Some []
  | (k, v) :: r => a <-? f v ;? t <-? entries_of f r ;? Some ((k, a) :: t)
  end.
Definition as_map {A} (f : json -> option A) (v : option json)
  : option (list (string * A)) :=
  match v with Some (JObj l) => entries_of f l | _ => None end.
Definition map_json {A} (f : A -> json) (m : list (string * A)) : json :=
  JObj (map (fun kv => (fst kv, f (snd kv))) m).


Module FeatureConfig.
Record t := mk {
  enabled : bool; version : string; installedAt : string;
  uiLibrary : string; stateManagement : string;
  files : list string; dependencies : list string }.

Definition to_json (f : t) : json :=
  JObj [("enabled", JBool (enabled f)); ("version", JStr (version f));
        ("installedAt", JStr (installedAt f));
        ("uiLibrary", JStr (uiLibrary f));
        ("stateManagement", JStr (stateManagement f));
        ("files", strs (files f)); ("dependencies", strs (dependencies f))].

Definition of_json (j : json) : option t :=
  e <-? as_bool (get "enabled" j) ;? v <-? as_str (get "version" j) ;?
  i <-? as_str (get "installedAt" j) ;? u <-? as_str (get "uiLibrary" j) ;?
  s <-? as_str (get "stateManagement" j) ;? fs <-? as_strs (get "files" j) ;?
  ds <-? as_strs (get "dependencies" j) ;? Some (mk e v i u s fs ds).
End FeatureConfig.

Module ScreenConfig.
Record t := mk {
  type : string; uiLibrary : string; stateManagement : string;
  createdAt : string; filePath : string }.

Definition to_json (c : t) : json :=
  JObj [("type", JStr (type c)); ("uiLibrary", JStr (uiLibrary c));
        ("stateManagement", JStr (stateManagement c));
        ("createdAt", JStr (createdAt c)); ("filePath", JStr (filePath c))].

Definition of_json (j : json) : option t :=
  a <-? as_str (get "type" j) ;? u <-? as_str (get "uiLibrary" j) ;?
  s <-? as_str (get "stateManagement" j) ;? c <-? as_str (get "createdAt" j) ;?
  p <-? as_str (get "filePath" j) ;? Some (mk a u s c p).
End ScreenConfig.

Module ComponentConfig.
Record t := mk {
  type : string; uiLibrary : string; createdAt : string; filePath : string }.

Definition to_json (c : t) : json :=
  JObj [("type", JStr (type c)); ("uiLibrary", JStr (uiLibrary c));
        ("createdAt", JStr (createdAt c)); ("filePath", JStr (filePath c))].

Definition of_json (j : json) : option t :=
  a <-? as_str (get "type" j) ;? u <-? as_str (get "uiLibrary" j) ;?
  c <-? as_str (get "createdAt" j) ;? p <-? as_str (get "filePath" j) ;?
  Some (mk a u c p).
End ComponentConfig.

(** The two string-literal unions of [ExpoGenieConfig]. *)
Inductive UILibrary :=
| ui_nativewind | ui_paper | ui_nativebase | ui_elements | ui_tamagui | ui_none.
Inductive StateManagement :=
| sm_zustand | sm_redux | sm_mobx | sm_jotai | sm_context | sm_none.

Definition UILibrary_name (u : UILibrary) : string :=
  match u with
  | ui_nativewind => "nativewind" | ui_paper => "paper"
  | ui_nativebase => "nativebase" | ui_elements => "elements"
  | ui_tamagui => "tamagui" | ui_none => "none"
  end.
Definition UILibrary_of (s : string) : option UILibrary :=
  find (fun u => String.eqb (UILibrary_name u) s)
    [ui_nativewind; ui_paper; ui_nativebase; ui_elements; ui_tamagui; ui_none].

Definition StateManagement_name (s : StateManagement) : string :=
  match s with
  | sm_zustand => "zustand" | sm_redux => "redux" | sm_mobx => "mobx"
  | sm_jotai => "jotai" | sm_context => "context" | sm_none => "none"
  end.
Definition StateManagement_of (s : string) : option StateManagement :=
  find (fun x => String.eqb (StateManagement_name x) s)
    [sm_zustand; sm_redux; sm_mobx; sm_jotai; sm_context; sm_none].

Module Preferences.
Record t := mk {
  packageManager : string; autoInstall : bool; gitCommit : bool;
  typescript : bool; darkMode : bool }.

Definition to_json (p : t) : json :=
  JObj [("packageManager", JStr (packageManager p));
        ("autoInstall", JBool (autoInstall p)); ("gitCommit", JBool (gitCommit p));
        ("typescript", JBool (typescript p)); ("darkMode", JBool (darkMode p))].

Definition of_json (j : json) : option t :=
  m <-? as_str (get "packageManager" j) ;? a <-? as_bool (get "autoInstall" j) ;?
  g <-? as_bool (get "gitCommit" j) ;? t <-? as_bool (get "typescript" j) ;?
  d <-? as_bool (get "darkMode" j) ;? Some (mk m a g t d).
End Preferences.

(** [ExpoGenieConfig], the project manifest. *)
Module ExpoGenieConfig.
Record t := mk {
  version : string; projectName : string; template : option string;
  uiLibrary : UILibrary; stateManagement : StateManagement;
  features : list (string * FeatureConfig.t);
  preferences : Preferences.t;
  screens : list (string * ScreenConfig.t);
  components : list (string * ComponentConfig.t) }.

(** The document [JSON.stringify] writes: an absent [template]
    ([undefined]) is left out. *)
Definition to_json (m : t) : json :=
  JObj ([("version", JStr (version m)); ("projectName", JStr (projectName m))]
        ++ match template m with Some s => [("template", JStr s)] | None => [] end
        ++ [("uiLibrary", JStr (UILibrary_name (uiLibrary m)));
            ("stateManagement", JStr (StateManagement_name (stateManagement m)));
            ("features", map_json FeatureConfig.to_json (features m));
            ("preferences", Preferences.to_json (preferences m));
            ("screens", map_json ScreenConfig.to_json (screens m));
            ("components", map_json ComponentConfig.to_json (components m))]).

Definition of_json (j : json) : option t :=
  v <-? as_str (get "version" j) ;? n <-? as_str (get "projectName" j) ;?
  tp <-? match get "template" j with
         | None => Some None
         | Some (JStr s) => Some (Some s)
         | Some _ => None
         end ;?
  u <-? (s <-? as_str (get "uiLibrary" j) ;? UILibrary_of s) ;?
  sm <-? (s <-? as_str (get "stateManagement" j) ;? StateManagement_of s) ;?
  fs <-? as_map FeatureConfig.of_json (get "features" j) ;?
  p <-? (x <-? get "preferences" j ;? Preferences.of_json x) ;?
  ss <-? as_map ScreenConfig.of_json (get "screens" j) ;?
  cs <-? as_map ComponentConfig.of_json (get "components" j) ;?
  Some (mk v n tp u sm fs p ss cs).
End ExpoGenieConfig.

Module GlobalConfig.
Record t := mk {
  defaultTemplate : string; defaultPackageManager : string;
  defaultUILibrary : string; defaultStateManagement : string;
  autoInstall : bool; gitCommit : bool; darkMode : bool;
  recentProjects : list string }.

Definition to_members (g : t) : members :=
  [("defaultTemplate", JStr (defaultTemplate g));
   ("defaultPackageManager", JStr (defaultPackageManager g));
   ("defaultUILibrary", JStr (defaultUILibrary g));
   ("defaultStateManagement", JStr (defaultStateManagement g));
   ("autoInstall", JBool (autoInstall g)); ("gitCommit", JBool (gitCommit g));
   ("darkMode", JBool (darkMode g)); ("recentProjects", strs (recentProjects g))].

Definition to_json (g : t) : json := JObj (to_members g).

Definition of_json (j : json) : option t :=
  a <-? as_str (get "defaultTemplate" j) ;?
  b <-? as_str (get "defaultPackageManager" j) ;?
  c <-? as_str (get "defaultUILibrary" j) ;?
  d <-? as_str (get "defaultStateManagement" j) ;?
  e <-? as_bool (get "autoInstall" j) ;? f <-? as_bool (get "gitCommit" j) ;?
  g <-? as_bool (get "darkMode" j) ;? r <-? as_strs (get "recentProjects" j) ;?
  Some (mk a b c d e f g r).

(** The field names of [GlobalConfig]. *)
Definition keys : list string := map fst (to_members (mk "" "" "" "" false false false [])).
End GlobalConfig.

(* ================================================================= *)
(** ** config (src/src/utils/config.ts)                                 *)
(* ================================================================= *)

(** The array index a property key denotes, if any: its canonical
    decimal form, below 2^32 - 1. *)
Definition array_index (k : string) : option nat :=
  match NilEmpty.uint_of_string k with
  | Some u =>
      if N.ltb (N.of_uint u) 4294967295%N then
        let n := Nat.of_uint u in
        if String.eqb (index_key n) k then Some n else None
      else None
  | None => None
  end.

(** [target[k] = v] on a value read out of a parsed document, in strict
    mode, with [v] an object: objects take the property, except that a
    [__proto__] they do not own runs the setter inherited from
    [Object.prototype], which replaces the prototype and leaves the
    serialised document as it was; arrays take an index (extended with
    holes, which [JSON.stringify] writes as [null]), reject [length]
    (an object is no valid array length) and keep any other property off
    the serialised document; [null], [undefined] and primitives raise a
    [TypeError]. *)
Definition assign (target : option json) (k : string) (v : json) : string + json :=
  match target with
  | Some (JObj l) =>
      if String.eqb k "__proto__" && negb (existsb (fun kv => String.eqb (fst kv) k) l)
      then inr (JObj l)
      else inr (JObj (obj_set k v l))
  | Some (JArr xs) =>
      match array_index k with
      | Some i =>
          if Nat.ltb i (List.length xs)
          then inr (JArr (List.firstn i xs ++ v :: List.skipn (S i) xs))
          else inr (JArr (xs ++ List.repeat JNull (Nat.sub i (List.length xs)) ++ [v]))
      | None =>
          if String.eqb k "length" then inl "RangeError: Invalid array length"
          else inr (JArr xs)
      end
  | _ => inl ("TypeError: Cannot set property " ++ k)%string
  end.

(** [existing.field[k] = v], mutating [existing] in place. *)
Definition assign_in (existing : json) (field k : string) (v : json) : string + json :=
  match existing with
  | JObj l =>
      match assign (lookup field l) k v with
      | inr inner => inr (JObj (obj_set field inner l))
      | inl e => inl e
      end
  | _ => inl ("TypeError: Cannot set properties of undefined (setting '" ++ k ++ "')")%string
  end.

(** The properties every plain object inherits from [Object.prototype];
    each is a function or, for [__proto__], an object: all truthy. *)
Definition object_proto_keys : list string :=
  ["constructor"; "__defineGetter__"; "__defineSetter__"; "hasOwnProperty";
   "__lookupGetter__"; "__lookupSetter__"; "isPrototypeOf";
   "propertyIsEnumerable"; "toString"; "valueOf"; "__proto__"; "toLocaleString"].

(** [delete v[k]] in strict mode on a value read out of a parsed
    document: an own property of an object goes; an array index leaves
    a hole ([null] once serialised); the non-configurable [length] and
    string indices raise a [TypeError]; anything else is a no-op. *)
Definition delete_prop (v : json) (k : string) : string + json :=
  match v with
  | JObj l => inr (JObj (filter (fun kv => negb (String.eqb (fst kv) k)) l))
  | JArr xs =>
      match array_index k with
      | Some i =>
          if Nat.ltb i (List.length xs)
          then inr (JArr (List.firstn i xs ++ JNull :: List.skipn (S i) xs))
          else inr v
      | None =>
          if String.eqb k "length"
          then inl "TypeError: Cannot delete property 'length' of [object Array]"
          else inr v
      end
  | JStr s =>
      match array_index k with
      | Some i =>
          if Nat.ltb i (String.length s)
          then inl ("TypeError: Cannot delete property '" ++ k ++ "' of [object String]")%string
          else inr v
      | None =>
          if String.eqb k "length"
          then inl "TypeError: Cannot delete property 'length' of [object String]"
          else inr v
      end
  | _ => inr v
  end.

Definition CONFIG_FILE_NAME := "expo-genie.json".

Module config.
Section WithHome.
(** [os.homedir()]. *)
Variable homedir : string.

Definition GLOBAL_CONFIG_DIR := path_join homedir ".expo-genie".
Definition GLOBAL_CONFIG_FILE := path_join GLOBAL_CONFIG_DIR "config.json".

Definition loadProjectConfig (projectPath : string) : io (option json) :=
let configPath := path_join projectPath CONFIG_FILE_NAME in
ex <- fileSystem.fileExists configPath ;;
if ex then j <- fileSystem.readJson configPath ;; ret (Some j)
else ret None.

Definition saveProjectConfig (projectPath : string) (cfg : json) : io unit :=
fileSystem.writeJson (path_join projectPath CONFIG_FILE_NAME) cfg.

Definition defaults : json :=
GlobalConfig.to_json
(GlobalConfig.mk "blank" "npm" "nativewind" "zustand" true false false []).

Definition loadGlobalConfig : io json :=
ex <- fileSystem.fileExists GLOBAL_CONFIG_FILE ;;
if ex then saved <- fileSystem.readJson GLOBAL_CONFIG_FILE ;;
         ret (spread [defaults; saved])
else ret defaults.

Definition saveGlobalConfig (cfg : json) : io unit :=
fileSystem.createDirectory GLOBAL_CONFIG_DIR ;;
existing <- loadGlobalConfig ;;
fileSystem.writeJson GLOBAL_CONFIG_FILE (spread [existing; cfg]).

Definition updateProjectConfig (projectPath : string) (updates : json) : io unit :=
existing <- loadProjectConfig projectPath ;;
match existing with
| Some e => if truthy e then saveProjectConfig projectPath (spread [e; updates])
          else ret tt
| None => ret tt
end.

(** The shared body of [addFeature], [addScreen] and [addComponent]. *)
Definition addEntry (field : string) (projectPath name : string) (v : json) : io unit :=
existing <- loadProjectConfig projectPath ;;
match existing with
| Some e =>
  if truthy e then
    match assign_in e field name v with
    | inr e' => saveProjectConfig projectPath e'
    | inl err => throw err
    end
  else ret tt
| None => ret tt
end.

Definition addFeature (projectPath featureName : string) (fc : FeatureConfig.t) : io unit :=
addEntry "features" projectPath featureName (FeatureConfig.to_json fc).
Definition addScreen (projectPath screenName : string) (sc : ScreenConfig.t) : io unit :=
addEntry "screens" projectPath screenName (ScreenConfig.to_json sc).
Definition addComponent (projectPath componentName : string) (cc : ComponentConfig.t)
: io unit :=
addEntry "components" projectPath componentName (ComponentConfig.to_json cc).

Definition updateUILibrary (projectPath uiLibrary : string) : io unit :=
updateProjectConfig projectPath (JObj [("uiLibrary", JStr uiLibrary)]).
Definition updateStateManagement (projectPath stateManagement : string) : io unit :=
updateProjectConfig projectPath (JObj [("stateManagement", JStr stateManagement)]).

(** [p !== projectPath] for an element [p] of the parsed array. *)
Definition is_path (projectPath : string) (v : json) : bool :=
match v with JStr s => String.eqb s projectPath | _ => false end.

Definition addRecentProject (projectPath : string) : io unit :=
globalConfig <- loadGlobalConfig ;;
match get "recentProjects" globalConfig with
| Some (JArr xs) =>
  let recent := JStr projectPath :: filter (fun p => negb (is_path projectPath p)) xs in
  let recent := if Nat.ltb 10 (List.length recent) then removelast recent else recent in
  saveGlobalConfig (JObj [("recentProjects", JArr recent)])
| _ => throw "TypeError: globalConfig.recentProjects.filter is not a function"
end.

Definition createDefaultConfig
    (projectName template uiLibrary stateManagement packageManager : string) : json :=
JObj [("version", JStr "1.0.0"); ("projectName", JStr projectName);
      ("template", JStr template); ("uiLibrary", JStr uiLibrary);
      ("stateManagement", JStr stateManagement); ("features", JObj []);
      ("preferences", JObj [("packageManager", JStr packageManager);
                            ("autoInstall", JBool true); ("gitCommit", JBool false);
                            ("typescript", JBool true); ("darkMode", JBool false)]);
      ("screens", JObj []); ("components", JObj [])].

(** Truthiness of [v[k]] when [v] is an array, a string, a number or a
    boolean and [k] is not one of its own properties: what its prototype
    chain supplies (the methods of [Array.prototype] and the like). *)
Variable inherited : json -> string -> bool.

(** Truthiness of [v[k]] for a value [v] read out of a parsed document. *)
Definition prop_truthy (v : json) (k : string) : bool :=
match v with
| JObj l =>
  match lookup k l with
  | Some x => truthy x
  | None => existsb (String.eqb k) object_proto_keys
  end
| JArr xs =>
  match lookup k (own_props v) with
  | Some x => truthy x
  | None => if String.eqb k "length" then negb (Nat.eqb (List.length xs) 0)
            else inherited v k
  end
| JStr s =>
  match lookup k (own_props v) with
  | Some x => truthy x
  | None => if String.eqb k "length" then negb (Nat.eqb (String.length s) 0)
            else inherited v k
  end
| _ => inherited v k
end.

Definition removeFeature (projectPath featureName : string) : io unit :=
existing <- loadProjectConfig projectPath ;;
match existing with
| Some e =>
  if truthy e then
    match e with
    | JObj l =>
      match lookup "features" l with
      | None =>
        throw ("TypeError: Cannot read properties of undefined (reading '"
               ++ featureName ++ "')")%string
      | Some JNull =>
        throw ("TypeError: Cannot read properties of null (reading '"
               ++ featureName ++ "')")%string
      | Some fs =>
        if prop_truthy fs featureName then
          match delete_prop fs featureName with
          | inr fs' => saveProjectConfig projectPath (JObj (obj_set "features" fs' l))
          | inl err => throw err
          end
        else ret tt
      end
    | _ =>
      throw ("TypeError: Cannot read properties of undefined (reading '"
             ++ featureName ++ "')")%string
    end
  else ret tt
| None => ret tt
end.

(** [config?.uiLibrary || 'nativewind'] and its state counterpart. *)
Definition or_default (c : option json) (field dflt : string) : json :=
match c with
| Some j =>
  match get field j with
  | Some v => if truthy v then v else JStr dflt
  | None => JStr dflt
  end
| None => JStr dflt
end.

Definition getUILibrary (projectPath : string) : io json :=
c <- loadProjectConfig projectPath ;; ret (or_default c "uiLibrary" "nativewind").

Definition getStateManagement (projectPath : string) : io json :=
c <- loadProjectConfig projectPath ;; ret (or_default c "stateManagement" "zustand").

Definition isExpoGenieProject (projectPath : string) : io bool :=
fileSystem.fileExists (path_join projectPath CONFIG_FILE_NAME).

Definition LOCK_FILE := path_join GLOBAL_CONFIG_DIR ".lock".

(** [Date.now().toString()] is a decimal numeral, which the file then
    holds as a JSON number. *)
Definition createLock (now : Z) : io unit :=
fileSystem.createDirectory GLOBAL_CONFIG_DIR ;;
fileSystem.writeFile LOCK_FILE (Doc (JNum now)).

Definition releaseLock : io unit :=
ex <- fileSystem.fileExists LOCK_FILE ;;
if ex then fileSystem.deleteDirectory LOCK_FILE else ret tt.

Definition isLocked : io bool := fileSystem.fileExists LOCK_FILE.

End WithHome.
End config.

(* ================================================================= *)
(** ** The config command (src/src/commands/config.ts, lines 1-55)      *)
(* ================================================================= *)

(** [configCommand(action, key, value)].  A failure ([inl]) is the
    command printing an error and exiting with status 1; the console
    output of [get] and [list] is not modelled. *)
Module commands.
Definition configCommand (homedir action : string) (key value : option string)
  : io unit :=
  globalConfig <- config.loadGlobalConfig homedir ;;
  if String.eqb action "set" then
    match key, value with
    | Some k, Some v =>
        if String.eqb k "" then throw "Usage: eg config set <key> <value>"
        else config.saveGlobalConfig homedir (JObj [(k, JStr v)])
    | _, _ => throw "Usage: eg config set <key> <value>"
    end
  else if String.eqb action "get" then
    match key with
    | Some k => if String.eqb k "" then throw "Usage: eg config get <key>" else ret tt
    | None => throw "Usage: eg config get <key>"
    end
  else if String.eqb action "list" then ret tt
  else if String.eqb action "reset" then
    config.saveGlobalConfig homedir
      (JObj [("defaultTemplate", JStr "blank"); ("defaultPackageManager", JStr "npm");
             ("autoInstall", JBool true); ("gitCommit", JBool false)])
  else throw "Invalid action. Use: set, get, list, or reset".
End commands.

(* ================================================================= *)
(** ** The "needs regeneration" test of addCommand (add.ts, 70-79)      *)
(* ================================================================= *)

Module addCommand.
Definition needsRegeneration (existingFeature : FeatureConfig.t)
    (currentUILibrary currentStateManagement : string) : bool :=
  negb (String.eqb (FeatureConfig.uiLibrary existingFeature) currentUILibrary)
  || negb (String.eqb (FeatureConfig.stateManagement existingFeature)
                      currentStateManagement).
End addCommand.

(* ================================================================= *)
(** ** packageManager.detect (src/src/utils/packageManager.ts)          *)
(* ================================================================= *)

(** JavaScript [WhiteSpace] and [LineTerminator] among the code units
    below 256: tab, LF, VT, FF, CR, space and no-break space. *)
Definition is_ws (c : ascii) : bool :=
  let n := nat_of_ascii c in
  Nat.eqb n 32 || Nat.eqb n 160 || (Nat.leb 9 n && Nat.leb n 13).

Fixpoint drop_ws (l : list ascii) : list ascii :=
  match l with
  | [] => []
  | c :: r => if is_ws c then drop_ws r else l
  end.

Fixpoint of_chars (l : list ascii) : string :=
  match l with
  | [] => EmptyString
  | c :: r => String c (of_chars r)
  end.

(** [s.trim()]. *)
Definition trim (s : string) : string :=
  of_chars (rev (drop_ws (rev (drop_ws (chars s))))).

(** No character of [s] is white space. *)
Definition no_ws (s : string) : bool := forallb (fun c => negb (is_ws c)) (chars s).

Inductive PackageManager := npm | yarn | pnpm | bun.

Module packageManager.
(** [Object.entries(lockFiles)], in declaration order. *)
Definition lockFiles : list (string * PackageManager) :=
  [("package-lock.json", npm); ("yarn.lock", yarn);
   ("pnpm-lock.yaml", pnpm); ("bun.lockb", bun)].

Fixpoint detect_loop (projectPath : string) (entries : list (string * PackageManager))
  : io PackageManager :=
  match entries with
  | [] => ret npm
  | (lockFile, pm) :: rest =>
      ex <- fileSystem.fileExists (path_join projectPath lockFile) ;;
      if ex then ret pm else detect_loop projectPath rest
  end.

Definition detect (projectPath : string) : io PackageManager :=
  detect_loop projectPath lockFiles.

(** [filter(Boolean)] on strings. *)
Definition nonempty (s : string) : bool := negb (String.eqb s "").

(** The argument lists of [install] (its [commands] record); [packages]
    is [None] when the caller passes none. *)
Definition install_commands (packages : option (list string)) (isDev : bool)
    (pm : PackageManager) : list string :=
  match pm with
  | npm =>
      match packages with
      | Some ps => "install" :: (if isDev then "--save-dev" else "--save") :: ps
      | None => ["install"]
      end
  | yarn =>
      match packages with
      | Some ps => filter nonempty ("add" :: (if isDev then "-D" else "") :: ps)
      | None => ["install"]
      end
  | pnpm =>
      match packages with
      | Some ps => filter nonempty ("add" :: (if isDev then "-D" else "") :: ps)
      | None => ["install"]
      end
  | bun =>
      match packages with
      | Some ps => filter nonempty ("add" :: (if isDev then "-d" else "") :: ps)
      | None => ["install"]
      end
  end.

Definition devFlag (pm : PackageManager) : string :=
  match pm with npm => "--save-dev" | yarn => "-D" | pnpm => "-D" | bun => "-d" end.

Definition baseCommand (pm : PackageManager) : string :=
  match pm with
  | npm => "npm install" | yarn => "yarn add" | pnpm => "pnpm add" | bun => "bun add"
  end.

Definition getInstallCommand (pm : PackageManager) (packages : list string)
    (isDev : bool) : string :=
  trim (baseCommand pm ++ " " ++ (if isDev then devFlag pm else "") ++ " "
        ++ String.concat " " packages)%string.
End packageManager.

(* ================================================================= *)
(** ** Generator naming (src/unnamed/part_003, part_001)                *)
(* ================================================================= *)

(** Characters are the code units of the input, taken as ASCII. *)
Definition is_ascii (s : string) : bool :=
  forallb (fun c => Nat.ltb (nat_of_ascii c) 128) (chars s).

(** The class [[-_\s]] on ASCII: '-', '_', tab, LF, VT, FF, CR, space. *)
Definition is_sep (c : ascii) : bool :=
  let n := nat_of_ascii c in
  Nat.eqb n 45 || Nat.eqb n 95 || Nat.eqb n 32 || (Nat.leb 9 n && Nat.leb n 13).

Definition to_upper (c : ascii) : ascii :=
  let n := nat_of_ascii c in
  if Nat.leb 97 n && Nat.leb n 122 then ascii_of_nat (n - 32) else c.
Definition to_lower (c : ascii) : ascii :=
  let n := nat_of_ascii c in
  if Nat.leb 65 n && Nat.leb n 90 then ascii_of_nat (n + 32) else c.

Fixpoint map_str (f : ascii -> ascii) (s : string) : string :=
  match s with
  | EmptyString => EmptyString
  | String c r => String (f c) (map_str f r)
  end.

(** [s.split(/[-_\s]/)]: the pieces between separators, at least one. *)
Fixpoint split_sep (s : string) : list string :=
  match s with
  | EmptyString => [EmptyString]
  | String c r =>
      if is_sep c then EmptyString :: split_sep r
      else match split_sep r with
           | w :: ws => String c w :: ws
           | [] => [String c EmptyString]
           end
  end.

(** [word.charAt(0).toUpperCase() + word.slice(1).toLowerCase()]. *)
Definition capitalize (w : string) : string :=
  match w with
  | EmptyString => EmptyString
  | String c r => String (to_upper c) (map_str to_lower r)
  end.

Fixpoint ends_with (suffix s : string) : bool :=
  String.eqb s suffix ||
  match s with
  | EmptyString => false
  | String _ r => ends_with suffix r
  end.

(** The generators' source files, read and written as text. *)
Module fileText.
Definition tstore := string -> option string.

Definition tupd (st : tstore) (p s : string) : tstore :=
  fun q => if String.eqb q p then Some s else st q.

Definition tio (A : Type) := tstore -> (string + A) * tstore.

Definition readFile (p : string) : tio string :=
  fun st => match st p with
            | Some s => (inr s, st)
            | None => (inl ("Failed to read file: " ++ p)%string, st)
            end.

Definition writeFile (p s : string) : tio unit := fun st => (inr tt, tupd st p s).
End fileText.

Definition newline : ascii := "010"%char.
Definition nl : string := String newline EmptyString.

(** [s.split('\n')]. *)
Fixpoint split_nl (s : string) : list string :=
  match s with
  | EmptyString => [EmptyString]
  | String c r =>
      if Ascii.eqb c newline then EmptyString :: split_nl r
      else match split_nl r with
           | w :: ws => String c w :: ws
           | [] => [String c EmptyString]
           end
  end.

Module BaseGenerator.
(** The [GeneratorOptions] a caller passes: [typescript] is [None] when
    the caller leaves the property out, [Some None] when it passes it as
    [undefined], [Some (Some b)] when it passes a boolean. *)
Record GeneratorOptions := mk {
  projectPath : string; name : string;
  directory : option string; typescript : option (option bool) }.

(** [this.options.typescript] after [{ typescript: true, ...options }]:
    only a property left out takes the default. *)
Definition typescript_on (o : GeneratorOptions) : bool :=
  match typescript o with
  | Some (Some b) => b
  | Some None => false
  | None => true
  end.

Definition getFileExtension (o : GeneratorOptions) : string :=
  if typescript_on o then "tsx" else "jsx".

(** [this.options.directory || this.getDefaultDirectory()]. *)
Definition getFilePath (defaultDirectory : string) (o : GeneratorOptions)
    (filename : string) : string :=
  let dir := match directory o with
             | Some d => if String.eqb d "" then defaultDirectory else d
             | None => defaultDirectory
             end in
  path_join (path_join (projectPath o) dir) filename.

Definition formatComponentName (name : string) : string :=
  String.concat "" (map capitalize (split_sep name)).

Definition formatFileName (o : GeneratorOptions) (name : string) : string :=
  (formatComponentName name ++ "." ++ getFileExtension o)%string.

(** The loop of [addImportToFile]: the index of the last line that
    starts with ["import "], or [acc] (initially 0) if there is none. *)
Fixpoint last_import (i acc : nat) (lines : list string) : nat :=
  match lines with
  | [] => acc
  | l :: r => last_import (S i) (if String.prefix "import " l then i else acc) r
  end.

Definition addImportToFile (filePath importStatement : string) : fileText.tio unit :=
  fun st =>
    match fileText.readFile filePath st with
    | (inl e, st') => (inl e, st')
    | (inr content, st') =>
        let lines := split_nl content in
        let lastImportIndex := last_import 0 0 lines in
        let lines' := List.firstn (S lastImportIndex) lines ++ importStatement
                      :: List.skipn (S lastImportIndex) lines in
        fileText.writeFile filePath (String.concat nl lines') st'
    end.
End BaseGenerator.

Module ScreenGenerator.
Import BaseGenerator.

Definition getDefaultDirectory : string := "src/screens".

(** The path [generate()] writes the screen to and resolves with (the
    file's text is not modelled). *)
(** [screenName] in [generate()]. *)
Definition screenName (name : string) : string :=
  let componentName := formatComponentName name in
  if ends_with "Screen" componentName then componentName
  else (componentName ++ "Screen")%string.

Definition generate (o : GeneratorOptions) : string :=
  let filename := formatFileName o (screenName (name o)) in
  getFilePath getDefaultDirectory o filename.
End ScreenGenerator.


Module ComponentGenerator.
Import BaseGenerator.

Definition getDefaultDirectory : string := "src/components".

(** The path [generate()] writes the component to and resolves with. *)
Definition generate (o : GeneratorOptions) : string :=
  let componentName := formatComponentName (name o) in
  let filename := formatFileName o componentName in
  getFilePath getDefaultDirectory o filename.
End ComponentGenerator.

(** [TemplateBuilder] (src/unnamed/part_003, lines 184-266). *)
Module TemplateBuilder.
Record CodeTemplate := mkT {
  imports : list string; interfaces : option (list string);
  component : option string; hooks : option (list string);
  styles : option string; exports : option (list string) }.

Definition init : CodeTemplate := mkT [] None None None None None.

(** [if (!a) a = []; a.push(s)]. *)
Definition push (o : option (list string)) (s : string) : option (list string) :=
  match o with Some l => Some (l ++ [s]) | None => Some [s] end.

Definition addImport (s : string) (t : CodeTemplate) : CodeTemplate :=
  mkT (imports t ++ [s]) (interfaces t) (component t) (hooks t) (styles t) (exports t).
Definition addInterface (s : string) (t : CodeTemplate) : CodeTemplate :=
  mkT (imports t) (push (interfaces t) s) (component t) (hooks t) (styles t) (exports t).
Definition setComponent (s : string) (t : CodeTemplate) : CodeTemplate :=
  mkT (imports t) (interfaces t) (Some s) (hooks t) (styles t) (exports t).
Definition addHook (s : string) (t : CodeTemplate) : CodeTemplate :=
  mkT (imports t) (interfaces t) (component t) (push (hooks t) s) (styles t) (exports t).
Definition setStyles (s : string) (t : CodeTemplate) : CodeTemplate :=
  mkT (imports t) (interfaces t) (component t) (hooks t) (Some s) (exports t).
Definition addExport (s : string) (t : CodeTemplate) : CodeTemplate :=
  mkT (imports t) (interfaces t) (component t) (hooks t) (styles t) (push (exports t) s).

(** A joined section followed by its blank separator line. *)
Definition section (o : option (list string)) (sep : string) : list string :=
  match o with
  | Some ((_ :: _) as l) => [String.concat sep l; ""]
  | _ => []
  end.

Definition build (t : CodeTemplate) : string :=
  let parts :=
    (match imports t with [] => [] | l => [String.concat nl l; ""] end) ++
    section (interfaces t) (nl ++ nl) ++
    section (hooks t) (nl ++ nl) ++
    (match component t with
     | Some c => if String.eqb c "" then [] else [c]
     | None => []
     end) ++
    (match styles t with
     | Some s => if String.eqb s "" then [] else [""; s]
     | None => []
     end) ++
    (match exports t with
     | Some ((_ :: _) as l) => [""; String.concat nl l]
     | _ => []
     end) in
  String.concat nl parts.

(** A chain of builder calls [new TemplateBuilder().addImport(..)...]. *)
Inductive op :=
| AddImport (s : string) | AddInterface (s : string) | SetComponent (s : string)
| AddHook (s : string) | SetStyles (s : string) | AddExport (s : string).

Definition apply (o : op) (t : CodeTemplate) : CodeTemplate :=
  match o with
  | AddImport s => addImport s t
  | AddInterface s => addInterface s t
  | SetComponent s => setComponent s t
  | AddHook s => addHook s t
  | SetStyles s => setStyles s t
  | AddExport s => addExport s t
  end.

Definition run (ops : list op) : CodeTemplate :=
  fold_left (fun t o => apply o t) ops init.

(** Which method a call is. *)
Definition kind (o : op) : nat :=
  match o with
  | AddImport _ => 0 | AddInterface _ => 1 | SetComponent _ => 2
  | AddHook _ => 3 | SetStyles _ => 4 | AddExport _ => 5
  end.

Definition calls_of (k : nat) (ops : list op) : list op :=
  filter (fun o => Nat.eqb (kind o) k) ops.

(** The string a call passes. *)
Definition payload (o : op) : string :=
  match o with
  | AddImport s | AddInterface s | SetComponent s
  | AddHook s | SetStyles s | AddExport s => s
  end.
End TemplateBuilder.

(** No character of [s] is in the class [[-_\s]]. *)
Definition no_sep (s : string) : bool := forallb (fun c => negb (is_sep c)) (chars s).

(** Whether a file exists at a path. *)
Definition file_exists (st : store) (p : string) : bool :=
  match st p with Some _ => true | None => false end.

(* ================================================================= *)
(** ** Typed views of the stored documents                              *)
(* ================================================================= *)


Module ManifestUpdate.
Import ExpoGenieConfig.
End ManifestUpdate.

(** The manifest document a project's [expo-genie.json] holds. *)
Definition manifest_file (projectPath : string) : string :=
  path_join projectPath CONFIG_FILE_NAME.

(** Running [addRecentProject] for each path in turn, awaiting each. *)
Definition run_recent (homedir : string) (paths : list string) : io unit :=
  fold_left (fun m p => m ;; config.addRecentProject homedir p) paths (ret tt).

(** [recentProjects] as [loadGlobalConfig] returns it, when it is an
    array of strings. *)
Definition recent_of (homedir : string) (st : store) : option (list string) :=
  match fst (config.loadGlobalConfig homedir st) with
  | inr g => as_strs (get "recentProjects" g)
  | inl _ => None
  end.

(** The list computation [addRecentProject] performs on the paths. *)
Definition not_path (p : string) : string -> bool := fun q => negb (String.eqb q p).

Definition recent_step (p : string) (l : list string) : list string :=
  let r := p :: filter (not_path p) l in
  if Nat.ltb 10 (List.length r) then removelast r else r.

Definition recent_list (paths : list string) : list string :=
  fold_left (fun l p => recent_step p l) paths [].

(** Sample inputs. *)
Definition sample_manifest : ExpoGenieConfig.t :=
  ExpoGenieConfig.mk "1.0.0" "demo" (Some "blank") ui_nativewind sm_zustand
    [("camera", FeatureConfig.mk true "1.0.0" "2024-01-01T00:00:00Z" "nativewind"
                  "zustand" ["src/hooks/useCamera.ts"] ["expo-camera"])]
    (Preferences.mk "npm" true false true false) [] [].

Definition sample_global : GlobalConfig.t :=
  GlobalConfig.mk "blank" "yarn" "paper" "redux" false true true ["/work/app"].

Definition empty_store : store := fun _ => None.

Definition garbled_global_store : store :=
  upd empty_store (config.GLOBAL_CONFIG_FILE "/home/u") Unparsable.

Definition sample_feature : FeatureConfig.t :=
  FeatureConfig.mk true "1.0.0" "2024-01-01T00:00:00Z" "paper" "zustand" [] [].

Definition manifest_store : store :=
  upd empty_store (manifest_file "/work/app") (Doc (ExpoGenieConfig.to_json sample_manifest)).

Definition sample_members : members :=
  match ExpoGenieConfig.to_json sample_manifest with JObj l => l | _ => [] end.

(** The configuration steps of [initCommand] for an existing Expo
    project (src/src/commands/init.ts, lines 163-171). *)
Definition init_existing (homedir projectPath projectName uiLibrary stateManagement
    pm : string) : io unit :=
  config.saveProjectConfig projectPath
    (config.createDefaultConfig projectName "existing" uiLibrary stateManagement pm) ;;
  config.addRecentProject homedir projectPath.

(** A sample prototype chain that supplies nothing truthy. *)
Definition no_inherited (_ : json) (_ : string) : bool := false.

(* ================================================================= *)
(** ** Properties of property access, assignment and spread            *)
(* ================================================================= *)

Lemma lookup_app k l1 l2 :
  lookup k (l1 ++ l2) =
  match lookup k l2 with Some x => Some x | None => lookup k l1 end.
Proof.
  induction l1 as [|[k' v] r IH]; simpl.
  - destruct (lookup k l2); reflexivity.
  - rewrite IH. destruct (lookup k l2); reflexivity.
Qed.

Lemma lookup_replace k k' v l :
  lookup k (map (fun kv => if String.eqb (fst kv) k' then (k', v) else kv) l) =
  if String.eqb k k'
  then (if existsb (fun kv => String.eqb (fst kv) k') l then Some v else None)
  else lookup k l.
Proof.
  induction l as [|[k0 v0] r IH]; simpl.
  - destruct (String.eqb k k'); reflexivity.
  - rewrite IH.
    destruct (String.eqb k0 k') eqn:E0; simpl.
    + apply String.eqb_eq in E0; subst k0.
      destruct (String.eqb k k') eqn:E; simpl.
      * destruct (existsb _ r); reflexivity.
      * destruct (lookup k r); reflexivity.
    + destruct (String.eqb k k') eqn:E; simpl.
      * apply String.eqb_eq in E; subst k.
        destruct (existsb _ r); [reflexivity|].
        rewrite String.eqb_sym, E0. reflexivity.
      * reflexivity.
Qed.

Lemma lookup_obj_set k k' v l :
  lookup k (obj_set k' v l) = if String.eqb k k' then Some v else lookup k l.
Proof.
  unfold obj_set. destruct (existsb _ l) eqn:E.
  - rewrite lookup_replace, E. reflexivity.
  - rewrite lookup_app. simpl. destruct (String.eqb k k'); reflexivity.
Qed.

Lemma lookup_fold_set k props acc :
  lookup k (fold_left (fun a kv => obj_set (fst kv) (snd kv) a) props acc) =
  match lookup k props with Some v => Some v | None => lookup k acc end.
Proof.
  revert acc. induction props as [|[k' v] r IH]; intros acc; simpl.
  - reflexivity.
  - rewrite IH, lookup_obj_set.
    destruct (lookup k r); [reflexivity|].
    destruct (String.eqb k k'); reflexivity.
Qed.

(** [{ ...a, ...b }[k]] reads [b]'s own property, else [a]'s. *)
Lemma get_spread2 k a b :
  get k (spread [a; b]) =
  match lookup k (own_props b) with
  | Some v => Some v
  | None => lookup k (own_props a)
  end.
Proof.
  unfold spread, spread_into. simpl. rewrite !lookup_fold_set.
  destruct (lookup k (own_props b)); [reflexivity|].
  destruct (lookup k (own_props a)); reflexivity.
Qed.

Lemma upd_same st p c : upd st p c p = Some c.
Proof. unfold upd. rewrite String.eqb_refl. reflexivity. Qed.

Lemma upd_other st p q c : q <> p -> upd st p c q = st q.
Proof.
  intros H. unfold upd. destruct (String.eqb q p) eqn:E; [|reflexivity].
  apply String.eqb_eq in E. contradiction.
Qed.

(* ================================================================= *)
(** ** Decoding what was encoded                                        *)
(* ================================================================= *)

Lemma strs_of_map l : strs_of (map JStr l) = Some l.
Proof. induction l as [|s r IH]; simpl; [reflexivity|]. rewrite IH. reflexivity. Qed.

Lemma strs_of_inv xs l : strs_of xs = Some l -> xs = map JStr l.
Proof.
  revert l. induction xs as [|x r IH]; intros l H; simpl in H.
  - injection H as <-. reflexivity.
  - destruct x; try discriminate.
    destruct (strs_of r) as [t|] eqn:E; [|discriminate].
    injection H as <-. simpl. rewrite (IH t eq_refl). reflexivity.
Qed.

Lemma entries_of_map {A} (enc : A -> json) (dec : json -> option A)
    (H : forall a, dec (enc a) = Some a) (m : list (string * A)) :
  entries_of dec (map (fun kv => (fst kv, enc (snd kv))) m) = Some m.
Proof.
  induction m as [|[k a] r IH]; simpl; [reflexivity|].
  rewrite H, IH. reflexivity.
Qed.

Lemma FeatureConfig_roundtrip f : FeatureConfig.of_json (FeatureConfig.to_json f) = Some f.
Proof.
  destruct f. unfold FeatureConfig.of_json, FeatureConfig.to_json, strs. simpl.
  rewrite !strs_of_map. reflexivity.
Qed.

Lemma ScreenConfig_roundtrip c : ScreenConfig.of_json (ScreenConfig.to_json c) = Some c.
Proof. destruct c. reflexivity. Qed.

Lemma ComponentConfig_roundtrip c :
  ComponentConfig.of_json (ComponentConfig.to_json c) = Some c.
Proof. destruct c. reflexivity. Qed.

Lemma Preferences_roundtrip p : Preferences.of_json (Preferences.to_json p) = Some p.
Proof. destruct p. reflexivity. Qed.

Lemma UILibrary_roundtrip u : UILibrary_of (UILibrary_name u) = Some u.
Proof. destruct u; reflexivity. Qed.

Lemma StateManagement_roundtrip s : StateManagement_of (StateManagement_name s) = Some s.
Proof. destruct s; reflexivity. Qed.

Lemma ExpoGenieConfig_roundtrip m :
  ExpoGenieConfig.of_json (ExpoGenieConfig.to_json m) = Some m.
Proof.
  destruct m as [v n tp u sm fs p ss cs].
  unfold ExpoGenieConfig.of_json, ExpoGenieConfig.to_json, map_json.
  destruct tp; simpl;
    rewrite UILibrary_roundtrip, StateManagement_roundtrip,
      (entries_of_map _ _ FeatureConfig_roundtrip),
      (entries_of_map _ _ ScreenConfig_roundtrip),
      (entries_of_map _ _ ComponentConfig_roundtrip);
    destruct p; reflexivity.
Qed.

(** [GlobalConfig.of_json] reads only the eight fields. *)
Lemma GlobalConfig_of_json_fields j c :
  (forall k, In k GlobalConfig.keys ->
             get k j = lookup k (GlobalConfig.to_members c)) ->
  GlobalConfig.of_json j = Some c.
Proof.
  intros H. unfold GlobalConfig.of_json.
  rewrite (H "defaultTemplate"), (H "defaultPackageManager"),
    (H "defaultUILibrary"), (H "defaultStateManagement"), (H "autoInstall"),
    (H "gitCommit"), (H "darkMode"), (H "recentProjects")
    by (simpl; tauto).
  destruct c. simpl. unfold strs. rewrite strs_of_map. reflexivity.
Qed.

Lemma GlobalConfig_keys_defined c k :
  In k GlobalConfig.keys -> lookup k (GlobalConfig.to_members c) <> None.
Proof.
  intros H. simpl in H.
  repeat (destruct H as [<-|H]; [simpl; discriminate|]). contradiction.
Qed.

Lemma GlobalConfig_roundtrip c : GlobalConfig.of_json (GlobalConfig.to_json c) = Some c.
Proof. apply GlobalConfig_of_json_fields. reflexivity. Qed.

(* ================================================================= *)
(** ** The store operations, unfolded                                   *)
(* ================================================================= *)

Lemma loadProjectConfig_spec p st :
  config.loadProjectConfig p st =
  (match st (manifest_file p) with
   | None => inr None
   | Some (Doc j) => inr (Some j)
   | Some Unparsable => inl ("Failed to read JSON file: " ++ manifest_file p)%string
   end, st).
Proof.
  unfold config.loadProjectConfig, manifest_file, bind, ret,
    fileSystem.fileExists, fileSystem.readJson.
  cbn. destruct (st (path_join p CONFIG_FILE_NAME)) as [[j|]|] eqn:E;
    cbn; rewrite ?E; reflexivity.
Qed.

Lemma loadGlobalConfig_spec home st :
  config.loadGlobalConfig home st =
  (match st (config.GLOBAL_CONFIG_FILE home) with
   | None => inr config.defaults
   | Some (Doc saved) => inr (spread [config.defaults; saved])
   | Some Unparsable =>
       inl ("Failed to read JSON file: " ++ config.GLOBAL_CONFIG_FILE home)%string
   end, st).
Proof.
  unfold config.loadGlobalConfig, bind, ret, fileSystem.fileExists, fileSystem.readJson.
  cbn. destruct (st (config.GLOBAL_CONFIG_FILE home)) as [[j|]|] eqn:E;
    cbn; rewrite ?E; reflexivity.
Qed.

Lemma saveGlobalConfig_spec home cfg st :
  config.saveGlobalConfig home cfg st =
  match config.loadGlobalConfig home st with
  | (inr existing, _) =>
      (inr tt, upd st (config.GLOBAL_CONFIG_FILE home) (Doc (spread [existing; cfg])))
  | (inl e, _) => (inl e, st)
  end.
Proof.
  unfold config.saveGlobalConfig, bind at 1, fileSystem.createDirectory, ret.
  unfold bind. rewrite loadGlobalConfig_spec.
  destruct (st (config.GLOBAL_CONFIG_FILE home)) as [[j|]|]; reflexivity.
Qed.

(** Reading back a global config written by [saveGlobalConfig]. *)
Lemma load_after_save_global home existing cfg st :
  config.loadGlobalConfig home
    (upd st (config.GLOBAL_CONFIG_FILE home) (Doc (spread [existing; cfg]))) =
  (inr (spread [config.defaults; spread [existing; cfg]]),
   upd st (config.GLOBAL_CONFIG_FILE home) (Doc (spread [existing; cfg]))).
Proof. rewrite loadGlobalConfig_spec, upd_same. reflexivity. Qed.

Lemma get_reload k existing cfg :
  get k (spread [config.defaults; spread [existing; cfg]]) =
  match lookup k (own_props cfg) with
  | Some v => Some v
  | None =>
      match lookup k (own_props existing) with
      | Some v => Some v
      | None => lookup k (own_props config.defaults)
      end
  end.
Proof.
  rewrite get_spread2. change (own_props (spread [existing; cfg]))
    with (match spread [existing; cfg] with JObj l => l | _ => [] end).
  change (match spread [existing; cfg] with JObj l => l | _ => [] end)
    with (fold_left spread_into [existing; cfg] []).
  pose proof (get_spread2 k existing cfg) as H. unfold get, spread in H.
  rewrite H. destruct (lookup k (own_props cfg)); [reflexivity|].
  destruct (lookup k (own_props existing)); reflexivity.
Qed.

(* ================================================================= *)
(** ** C1: saving then loading gives the value back                     *)
(* ================================================================= *)

(** C1. Saving a manifest [m] at a project path and loading it again
    yields a document that decodes, field for field, to [m]; saving a
    full [GlobalConfig] [c] and loading the global config again yields a
    value whose eight fields are those of [c]. *)
Theorem save_load_roundtrip :
  (forall (p : string) (m : ExpoGenieConfig.t) (st : store),
     let '(r, st') := config.saveProjectConfig p (ExpoGenieConfig.to_json m) st in
     r = inr tt /\
     exists j, config.loadProjectConfig p st' = (inr (Some j), st') /\
               ExpoGenieConfig.of_json j = Some m) /\
  (forall (home : string) (c : GlobalConfig.t) (st st' : store),
     config.saveGlobalConfig home (GlobalConfig.to_json c) st = (inr tt, st') ->
     exists g, config.loadGlobalConfig home st' = (inr g, st') /\
               GlobalConfig.of_json g = Some c).
Proof.
  split.
  - intros p m st. unfold config.saveProjectConfig, fileSystem.writeJson.
    split; [reflexivity|].
    exists (ExpoGenieConfig.to_json m). split.
    + rewrite loadProjectConfig_spec. unfold manifest_file. rewrite upd_same.
      reflexivity.
    + apply ExpoGenieConfig_roundtrip.
  - intros home c st st' H.
    rewrite saveGlobalConfig_spec, loadGlobalConfig_spec in H.
    destruct (st (config.GLOBAL_CONFIG_FILE home)) as [[saved|]|];
      cbn in H; inversion H; subst st';
      (eexists; split; [apply load_after_save_global|]);
      apply GlobalConfig_of_json_fields; intros k Hk; rewrite get_reload;
      simpl own_props at 1;
      destruct (lookup k (GlobalConfig.to_members c)) eqn:E;
      solve [reflexivity | exfalso; exact (GlobalConfig_keys_defined c k Hk E)].
Qed.

Lemma save_load_roundtrip_witness :
  config.saveGlobalConfig "/home/u" (GlobalConfig.to_json sample_global) empty_store
  = (inr tt, snd (config.saveGlobalConfig "/home/u"
                   (GlobalConfig.to_json sample_global) empty_store)) /\
  exists g, config.loadGlobalConfig "/home/u"
              (snd (config.saveGlobalConfig "/home/u"
                      (GlobalConfig.to_json sample_global) empty_store))
            = (inr g, snd (config.saveGlobalConfig "/home/u"
                             (GlobalConfig.to_json sample_global) empty_store)) /\
            GlobalConfig.of_json g = Some sample_global.
Proof.
  split; [reflexivity|].
  apply (proj2 save_load_roundtrip "/home/u" sample_global empty_store).
  reflexivity.
Defined.

Lemma addEntry_spec field p n v st :
  config.addEntry field p n v st =
  match st (manifest_file p) with
  | None => (inr tt, st)
  | Some Unparsable => (inl ("Failed to read JSON file: " ++ manifest_file p)%string, st)
  | Some (Doc e) =>
      if truthy e then
        match assign_in e field n v with
        | inr e' => (inr tt, upd st (manifest_file p) (Doc e'))
        | inl err => (inl err, st)
        end
      else (inr tt, st)
  end.
Proof.
  unfold config.addEntry, bind at 1. rewrite loadProjectConfig_spec.
  destruct (st (manifest_file p)) as [[e|]|]; try reflexivity.
  destruct (truthy e); [|reflexivity].
  destruct (assign_in e field n v); reflexivity.
Qed.

Lemma updateProjectConfig_spec p updates st :
  config.updateProjectConfig p updates st =
  match st (manifest_file p) with
  | None => (inr tt, st)
  | Some Unparsable => (inl ("Failed to read JSON file: " ++ manifest_file p)%string, st)
  | Some (Doc e) =>
      if truthy e then (inr tt, upd st (manifest_file p) (Doc (spread [e; updates])))
      else (inr tt, st)
  end.
Proof.
  unfold config.updateProjectConfig, bind at 1. rewrite loadProjectConfig_spec.
  destruct (st (manifest_file p)) as [[e|]|]; try reflexivity.
  destruct (truthy e); reflexivity.
Qed.

(* ================================================================= *)
(** ** C3: the add operations without a manifest                        *)
(* ================================================================= *)

(** C3. At a project path with no [expo-genie.json], [addFeature],
    [addScreen] and [addComponent] resolve normally and leave every
    file as it was. *)
Theorem add_without_manifest (p : string) (st : store)
    (Hnone : st (manifest_file p) = None) :
  (forall n f, config.addFeature p n f st = (inr tt, st)) /\
  (forall n s, config.addScreen p n s st = (inr tt, st)) /\
  (forall n c, config.addComponent p n c st = (inr tt, st)).
Proof.
  unfold config.addFeature, config.addScreen, config.addComponent.
  repeat split; intros; rewrite addEntry_spec, Hnone; reflexivity.
Qed.

Lemma add_without_manifest_witness :
  empty_store (manifest_file "/work/app") = None /\
  config.addFeature "/work/app" "auth" sample_feature empty_store = (inr tt, empty_store).
Proof.
  split; [reflexivity|].
  apply (add_without_manifest "/work/app" empty_store eq_refl).
Defined.

(* ================================================================= *)
(** ** Replacing an entry of a manifest map                             *)
(* ================================================================= *)

















(* ================================================================= *)
(** ** C4: add replaces the whole entry                                 *)
(* ================================================================= *)




(* ================================================================= *)
(** ** C5: the preference updates touch one field                       *)
(* ================================================================= *)

Lemma spread_one_field l f v :
  get f (spread [JObj l; JObj [(f, v)]]) = Some v /\
  (forall k, k <> f -> get k (spread [JObj l; JObj [(f, v)]]) = get k (JObj l)).
Proof.
  split.
  - rewrite get_spread2. simpl. rewrite String.eqb_refl. reflexivity.
  - intros k Hk. rewrite get_spread2. simpl.
    apply String.eqb_neq in Hk. rewrite Hk. destruct (lookup k l); reflexivity.
Qed.

(** C5. On a stored manifest object, [updateUILibrary p lib] rewrites
    only that manifest: its [uiLibrary] becomes [lib] and every other
    property ([features], [screens], [components], [preferences], ...)
    reads as before; likewise [updateStateManagement] for
    [stateManagement]. *)
Theorem update_preference_frame (p lib : string) (st : store) (l : members)
    (Hdoc : st (manifest_file p) = Some (Doc (JObj l))) :
  (exists j, config.updateUILibrary p lib st = (inr tt, upd st (manifest_file p) (Doc j)) /\
     get "uiLibrary" j = Some (JStr lib) /\
     (forall k, k <> "uiLibrary" -> get k j = get k (JObj l))) /\
  (exists j, config.updateStateManagement p lib st =
               (inr tt, upd st (manifest_file p) (Doc j)) /\
     get "stateManagement" j = Some (JStr lib) /\
     (forall k, k <> "stateManagement" -> get k j = get k (JObj l))).
Proof.
  unfold config.updateUILibrary, config.updateStateManagement.
  split; rewrite updateProjectConfig_spec, Hdoc; simpl truthy; eexists;
    (split; [reflexivity|]); apply spread_one_field.
Qed.

Lemma update_preference_frame_witness :
  manifest_store (manifest_file "/work/app") = Some (Doc (JObj sample_members)) /\
  exists j, config.updateUILibrary "/work/app" "paper" manifest_store =
              (inr tt, upd manifest_store (manifest_file "/work/app") (Doc j)) /\
     get "uiLibrary" j = Some (JStr "paper") /\
     (forall k, k <> "uiLibrary" -> get k j = get k (JObj sample_members)).
Proof.
  assert (Hdoc : manifest_store (manifest_file "/work/app") =
                 Some (Doc (JObj sample_members))) by reflexivity.
  split; [exact Hdoc|].
  exact (proj1 (update_preference_frame "/work/app" "paper" manifest_store
                  sample_members Hdoc)).
Defined.

(* ================================================================= *)
(** ** C6: the "needs regeneration" test                                *)
(* ================================================================= *)

(** C6 (as stated, refuted). Equal UI libraries do not make the test
    false: a feature recorded with the current UI library but another
    state library still needs regeneration. *)
Lemma needsRegeneration_counterexample :
  ~ (forall (f : FeatureConfig.t) (currentUILibrary currentStateManagement : string),
       FeatureConfig.uiLibrary f = currentUILibrary ->
       addCommand.needsRegeneration f currentUILibrary currentStateManagement = false).
Proof.
  intros H.
  specialize (H (FeatureConfig.mk true "1.0.0" "2024-01-01T00:00:00Z" "nativewind"
                   "redux" [] []) "nativewind" "zustand" eq_refl).
  discriminate H.
Qed.

(** C6 (amended). The test is true exactly when the recorded UI
    library or the recorded state library differs from the manifest's
    current one; e.g. a record made with "paper" under a current
    "nativewind" needs regeneration. *)
Theorem needsRegeneration_iff (f : FeatureConfig.t)
    (currentUILibrary currentStateManagement : string) :
  addCommand.needsRegeneration f currentUILibrary currentStateManagement = true <->
  FeatureConfig.uiLibrary f <> currentUILibrary \/
  FeatureConfig.stateManagement f <> currentStateManagement.
Proof.
  unfold addCommand.needsRegeneration.
  rewrite orb_true_iff, !negb_true_iff, !String.eqb_neq. reflexivity.
Qed.

(* ================================================================= *)
(** ** C9: package-manager detection                                    *)
(* ================================================================= *)

(** C9. [detect] answers by the first lockfile present, in the order
    package-lock.json, yarn.lock, pnpm-lock.yaml, bun.lockb, and npm
    when none is present; it writes nothing. *)
Theorem detect_lockfile_order (p : string) (st : store) :
  packageManager.detect p st =
  (inr (if file_exists st (path_join p "package-lock.json") then npm
        else if file_exists st (path_join p "yarn.lock") then yarn
        else if file_exists st (path_join p "pnpm-lock.yaml") then pnpm
        else if file_exists st (path_join p "bun.lockb") then bun
        else npm), st).
Proof.
  unfold packageManager.detect, packageManager.lockFiles, packageManager.detect_loop,
    bind, ret, fileSystem.fileExists, file_exists.
  cbn.
  destruct (st (path_join p "package-lock.json")); [reflexivity|]. cbn.
  destruct (st (path_join p "yarn.lock")); [reflexivity|]. cbn.
  destruct (st (path_join p "pnpm-lock.yaml")); [reflexivity|]. cbn.
  destruct (st (path_join p "bun.lockb")); reflexivity.
Qed.

(* ================================================================= *)
(** ** Splitting and capitalising names                                 *)
(* ================================================================= *)

Lemma str_app_nil_r s : (s ++ "")%string = s.
Proof. induction s as [|c r IH]; simpl; [reflexivity|]. rewrite IH. reflexivity. Qed.

Lemma str_app_assoc a b c : ((a ++ b) ++ c)%string = (a ++ b ++ c)%string.
Proof. induction a as [|x r IH]; simpl; [reflexivity|]. rewrite IH. reflexivity. Qed.

Lemma chars_app a b : chars (a ++ b) = chars a ++ chars b.
Proof. induction a as [|c r IH]; simpl; [reflexivity|]. rewrite IH. reflexivity. Qed.

Lemma split_sep_nonempty s : split_sep s <> [].
Proof.
  destruct s as [|c r]; simpl; [discriminate|].
  destruct (is_sep c); [discriminate|]. destruct (split_sep r); discriminate.
Qed.

Lemma split_sep_app w t :
  no_sep w = true ->
  split_sep (w ++ t) =
  match split_sep t with x :: xs => (w ++ x)%string :: xs | [] => [w] end.
Proof.
  induction w as [|c r IH]; intros Hw; simpl.
  - destruct (split_sep t) eqn:E; [exfalso; exact (split_sep_nonempty t E)|reflexivity].
  - unfold no_sep in Hw. simpl in Hw. apply andb_true_iff in Hw as [Hc Hr].
    apply negb_true_iff in Hc. rewrite Hc, (IH Hr).
    destruct (split_sep t); reflexivity.
Qed.

Lemma concat_cons w l :
  l <> [] -> String.concat "" (w :: l) = (w ++ String.concat "" l)%string.
Proof. destruct l; [contradiction|reflexivity]. Qed.

(** Every piece of a split is free of separators. *)
Lemma split_sep_pieces s : Forall (fun w => no_sep w = true) (split_sep s).
Proof.
  induction s as [|c r IH]; simpl; [repeat constructor|].
  destruct (is_sep c) eqn:Ec.
  - constructor; [reflexivity|exact IH].
  - destruct (split_sep r) as [|w ws]; [repeat constructor; unfold no_sep; simpl;
      rewrite Ec; reflexivity|].
    inversion IH; subst. constructor; [|assumption].
    unfold no_sep in *. simpl. rewrite Ec. assumption.
Qed.

Lemma to_upper_keeps c : is_sep c = false -> is_sep (to_upper c) = false.
Proof.
  intros H. revert H.
  destruct c as [[] [] [] [] [] [] [] []]; vm_compute; intros H;
    solve [reflexivity | discriminate H].
Qed.

Lemma to_lower_keeps c : is_sep c = false -> is_sep (to_lower c) = false.
Proof.
  intros H. revert H.
  destruct c as [[] [] [] [] [] [] [] []]; vm_compute; intros H;
    solve [reflexivity | discriminate H].
Qed.

Lemma map_lower_no_sep r : no_sep r = true -> no_sep (map_str to_lower r) = true.
Proof.
  induction r as [|c r IH]; unfold no_sep; simpl; intros H; [reflexivity|].
  apply andb_true_iff in H as [Hc Hr]. apply negb_true_iff in Hc.
  rewrite (to_lower_keeps c Hc). simpl. exact (IH Hr).
Qed.

Lemma capitalize_no_sep w : no_sep w = true -> no_sep (capitalize w) = true.
Proof.
  destruct w as [|c r]; unfold no_sep; simpl; intros H; [reflexivity|].
  apply andb_true_iff in H as [Hc Hr]. apply negb_true_iff in Hc.
  rewrite (to_upper_keeps c Hc). simpl. exact (map_lower_no_sep r Hr).
Qed.

Lemma concat_no_sep l :
  Forall (fun w => no_sep w = true) l -> no_sep (String.concat "" l) = true.
Proof.
  induction l as [|w ws IH]; intros H; [reflexivity|].
  inversion H; subst. destruct ws as [|w' ws']; [assumption|].
  rewrite concat_cons by discriminate. unfold no_sep in *.
  rewrite chars_app, forallb_app. simpl.
  rewrite H2. apply IH. assumption.
Qed.

(* ================================================================= *)
(** ** C8: formatComponentName                                          *)
(* ================================================================= *)

(** C8. On ASCII input, [formatComponentName] cuts the name at every
    '-', '_' or whitespace character and joins the pieces, each with its
    first character upper-cased (and the rest lower-cased): a leading
    separator-free word [w] followed by a separator contributes
    [capitalize w], a separator-free name is just capitalised, and the
    result holds no separator.  The three inputs "my-awesome_component",
    "My Awesome Component" and "my_awesome-component" all give
    "MyAwesomeComponent". *)
Theorem formatComponentName_pascal :
  (forall (w : string) (c : ascii) (s : string),
     is_ascii (w ++ String c s) = true -> no_sep w = true -> is_sep c = true ->
     BaseGenerator.formatComponentName (w ++ String c s) =
     (capitalize w ++ BaseGenerator.formatComponentName s)%string) /\
  (forall w : string, is_ascii w = true -> no_sep w = true ->
     BaseGenerator.formatComponentName w = capitalize w) /\
  (forall s : string, is_ascii s = true ->
     no_sep (BaseGenerator.formatComponentName s) = true) /\
  BaseGenerator.formatComponentName "my-awesome_component" = "MyAwesomeComponent" /\
  BaseGenerator.formatComponentName "My Awesome Component" = "MyAwesomeComponent" /\
  BaseGenerator.formatComponentName "my_awesome-component" = "MyAwesomeComponent".
Proof.
  split; [|split; [|split; [|split; [|split]]]]; try reflexivity.
  - intros w c s _ Hw Hc. unfold BaseGenerator.formatComponentName.
    rewrite (split_sep_app w _ Hw). simpl. rewrite Hc, str_app_nil_r.
    simpl map. apply concat_cons.
    intros E. apply map_eq_nil in E. exact (split_sep_nonempty s E).
  - intros w _ Hw. unfold BaseGenerator.formatComponentName.
    rewrite <- (str_app_nil_r w) at 1. rewrite (split_sep_app w _ Hw). simpl.
    rewrite str_app_nil_r. reflexivity.
  - intros s _. unfold BaseGenerator.formatComponentName.
    apply concat_no_sep. apply Forall_map.
    eapply Forall_impl; [|apply split_sep_pieces]. apply capitalize_no_sep.
Qed.

Lemma formatComponentName_pascal_witness :
  BaseGenerator.formatComponentName ("my" ++ String "-" "awesome") =
  (capitalize "my" ++ BaseGenerator.formatComponentName "awesome")%string /\
  BaseGenerator.formatComponentName "camera" = capitalize "camera" /\
  no_sep (BaseGenerator.formatComponentName "a b") = true.
Proof.
  split; [|split].
  - apply (proj1 formatComponentName_pascal); reflexivity.
  - apply (proj1 (proj2 formatComponentName_pascal)); reflexivity.
  - apply (proj1 (proj2 (proj2 formatComponentName_pascal))); reflexivity.
Defined.

(* ================================================================= *)
(** ** C7: where the screen generator writes                            *)
(* ================================================================= *)

(** C7 (a slip of the code). The identifier of the screen "profile" is
    "ProfileScreen", but [generate] passes it to [formatFileName], which
    formats it a second time and lower-cases the inner "S": with
    TypeScript on or off and no directory the file is
    src/screens/Profilescreen.tsx (.jsx), whose stem is neither the
    component's identifier nor Profile. *)
Lemma screen_path_counterexample :
  ScreenGenerator.screenName "profile" = "ProfileScreen" /\
  ScreenGenerator.generate (BaseGenerator.mk "/work/app" "profile" None (Some (Some true)))
    = "/work/app/src/screens/Profilescreen.tsx" /\
  ScreenGenerator.generate (BaseGenerator.mk "/work/app" "profile" None (Some (Some false)))
    = "/work/app/src/screens/Profilescreen.jsx" /\
  ScreenGenerator.generate (BaseGenerator.mk "/work/app" "profile" None (Some (Some true)))
    <> "/work/app/src/screens/Profile.tsx".
Proof.
  split; [reflexivity|]. split; [reflexivity|]. split; [reflexivity|].
  vm_compute. intros H. discriminate H.
Qed.

(* ================================================================= *)
(** ** The recent-projects list                                         *)
(* ================================================================= *)

Section RecentLists.

Lemma not_in_drop p l : ~ In p (filter (not_path p) l).
Proof.
  intros H. apply filter_In in H as [_ H]. unfold not_path in H.
  rewrite String.eqb_refl in H. discriminate.
Qed.

Lemma drop_absent p l : ~ In p l -> filter (not_path p) l = l.
Proof.
  induction l as [|x r IH]; intros H; simpl; [reflexivity|].
  unfold not_path at 1. destruct (String.eqb x p) eqn:E.
  - apply String.eqb_eq in E. subst. exfalso. apply H. left. reflexivity.
  - simpl. rewrite IH; [reflexivity|]. intros Hr. apply H. right. exact Hr.
Qed.

Lemma drop_present_length p l :
  NoDup l -> In p l -> List.length (filter (not_path p) l) = List.length l - 1.
Proof.
  induction l as [|x r IH]; intros Hnd Hin; [destruct Hin|].
  inversion Hnd as [|? ? Hx Hr]; subst. simpl. unfold not_path at 1.
  destruct (String.eqb x p) eqn:E.
  - apply String.eqb_eq in E. subst. simpl. rewrite drop_absent by exact Hx. lia.
  - simpl. destruct Hin as [->|Hin]; [rewrite String.eqb_refl in E; discriminate|].
    rewrite (IH Hr Hin). destruct r; [destruct Hin|]. simpl. lia.
Qed.

Lemma in_removelast {A} (a : A) l : In a (removelast l) -> In a l.
Proof.
  induction l as [|x r IH]; simpl; [tauto|].
  destruct r as [|y r']; simpl; [tauto|]. intros [H|H]; [left; exact H|].
  right. apply IH. exact H.
Qed.

Lemma NoDup_removelast {A} (l : list A) : NoDup l -> NoDup (removelast l).
Proof.
  induction l as [|x r IH]; intros H; simpl; [constructor|].
  inversion H as [|? ? Hx Hr]; subst.
  destruct r as [|y r']; [constructor|].
  constructor; [|exact (IH Hr)]. intros Hin. apply Hx. apply in_removelast. exact Hin.
Qed.

Lemma length_removelast {A} (l : list A) : List.length (removelast l) = List.length l - 1.
Proof.
  induction l as [|x r IH]; simpl; [reflexivity|].
  destruct r as [|y r']; [reflexivity|]. simpl in *. rewrite IH. lia.
Qed.

Lemma recent_step_inv p l :
  NoDup l -> List.length l <= 10 ->
  NoDup (recent_step p l) /\ List.length (recent_step p l) <= 10.
Proof.
  intros Hnd Hlen. unfold recent_step.
  assert (Hr : NoDup (p :: filter (not_path p) l)).
  { constructor; [apply not_in_drop|apply NoDup_filter; exact Hnd]. }
  pose proof (filter_length_le (not_path p) l) as Hf. idtac.
  destruct (Nat.ltb 10 (List.length (p :: filter (not_path p) l))) eqn:E.
  - split; [apply NoDup_removelast; exact Hr|].
    rewrite length_removelast. simpl. lia.
  - split; [exact Hr|]. apply Nat.ltb_ge in E. exact E.
Qed.

Lemma recent_list_snoc ps p : recent_list (ps ++ [p]) = recent_step p (recent_list ps).
Proof. unfold recent_list. rewrite fold_left_app. reflexivity. Qed.

Lemma recent_list_inv ps : NoDup (recent_list ps) /\ List.length (recent_list ps) <= 10.
Proof.
  induction ps as [|p ps IH] using rev_ind.
  - split; [constructor|simpl; lia].
  - rewrite recent_list_snoc. destruct IH as [H1 H2].
    apply recent_step_inv; assumption.
Qed.

Lemma recent_step_present p l :
  NoDup l -> List.length l <= 10 -> In p l ->
  recent_step p l = p :: filter (not_path p) l /\
  List.length (recent_step p l) = List.length l.
Proof.
  intros Hnd Hlen Hin. unfold recent_step. idtac.
  pose proof (drop_present_length p l Hnd Hin) as Hf.
  assert (Hpos : List.length l <> 0) by (destruct l; [destruct Hin|discriminate]).
  replace (Nat.ltb 10 (List.length (p :: filter (not_path p) l))) with false
    by (symmetry; apply Nat.ltb_ge; simpl; lia).
  split; [reflexivity|]. simpl. lia.
Qed.

Lemma recent_step_absent_full p l :
  ~ In p l -> List.length l = 10 ->
  recent_step p l = p :: removelast l /\ List.length (recent_step p l) = 10.
Proof.
  intros Hin Hlen. unfold recent_step. idtac.
  rewrite drop_absent by exact Hin.
  replace (Nat.ltb 10 (List.length (p :: l))) with true
    by (symmetry; apply Nat.ltb_lt; simpl; lia).
  destruct l as [|x r]; [discriminate|].
  split; [reflexivity|]. rewrite length_removelast. simpl in *. lia.
Qed.

Lemma recent_list_distinct ps :
  NoDup ps -> List.length ps <= 10 -> recent_list ps = rev ps.
Proof.
  induction ps as [|p ps IH] using rev_ind; intros Hnd Hlen; [reflexivity|].
  rewrite recent_list_snoc.
  apply NoDup_app_remove_r in Hnd as Hps.
  rewrite length_app in Hlen. simpl in Hlen.
  rewrite IH by (assumption || lia).
  assert (Hp : ~ In p ps).
  { intros H. apply NoDup_remove_2 in Hnd. rewrite app_nil_r in Hnd. contradiction. }
  unfold recent_step. idtac. rewrite drop_absent
    by (intros H; apply Hp; apply in_rev; exact H).
  replace (Nat.ltb 10 (List.length (p :: rev ps))) with false
    by (symmetry; apply Nat.ltb_ge; simpl; rewrite length_rev; lia).
  rewrite rev_app_distr. reflexivity.
Qed.

Lemma recent_list_eleven ps :
  NoDup ps -> List.length ps = 11 -> recent_list ps = rev (tl ps).
Proof.
  intros Hnd Hlen.
  destruct ps as [|p0 rest] using rev_ind; [discriminate|].
  rewrite length_app in Hlen. simpl in Hlen.
  rewrite recent_list_snoc.
  rewrite recent_list_distinct by (try (eapply NoDup_app_remove_r; exact Hnd); lia).
  assert (Hp : ~ In p0 rest).
  { intros H. apply NoDup_remove_2 in Hnd. rewrite app_nil_r in Hnd. contradiction. }
  destruct (recent_step_absent_full p0 (rev rest))
    as [-> _]; [intros H; apply Hp, in_rev, H|rewrite length_rev; lia|].
  destruct rest as [|x r]; [discriminate|].
  simpl tl. simpl rev. rewrite removelast_last, rev_app_distr. reflexivity.
Qed.

End RecentLists.

Lemma filter_is_path p l :
  filter (fun x => negb (config.is_path p x)) (map JStr l) =
  map JStr (filter (not_path p) l).
Proof.
  induction l as [|q r IH]; simpl; [reflexivity|].
  unfold not_path in *. destruct (String.eqb q p); simpl; rewrite IH; reflexivity.
Qed.

Lemma removelast_map {A B} (f : A -> B) l : removelast (map f l) = map f (removelast l).
Proof.
  induction l as [|x r IH]; simpl; [reflexivity|].
  destruct r as [|y r']; [reflexivity|]. simpl in *. rewrite IH. reflexivity.
Qed.

Lemma recent_json p l :
  (let recent := JStr p :: filter (fun x => negb (config.is_path p x)) (map JStr l) in
   if Nat.ltb 10 (List.length recent) then removelast recent else recent) =
  map JStr (recent_step p l).
Proof.
  simpl. rewrite filter_is_path. unfold recent_step.
  change (JStr p :: map JStr (filter (not_path p) l))
    with (map JStr (p :: filter (not_path p) l)).
  rewrite length_map. destruct (Nat.ltb _ _); [|reflexivity].
  exact (removelast_map JStr (p :: filter (not_path p) l)).
Qed.

(** One [addRecentProject] call on a readable global config. *)
Lemma addRecentProject_step home p st l :
  recent_of home st = Some l ->
  exists st', config.addRecentProject home p st = (inr tt, st') /\
              recent_of home st' = Some (recent_step p l).
Proof.
  unfold recent_of. intros H.
  destruct (config.loadGlobalConfig home st) as [[e|g] st0] eqn:E; [discriminate|].
  assert (st0 = st) as ->.
  { rewrite loadGlobalConfig_spec in E. injection E. auto. }
  simpl in H. unfold as_strs in H.
  destruct (get "recentProjects" g) as [[]|] eqn:Eg; try discriminate.
  apply strs_of_inv in H. subst.
  unfold config.addRecentProject, bind at 1. rewrite E. rewrite Eg.
  rewrite recent_json, saveGlobalConfig_spec, E.
  eexists. split; [reflexivity|].
  rewrite load_after_save_global. cbn [fst]. rewrite get_reload. simpl.
  apply strs_of_map.
Qed.

Lemma run_recent_snoc home ps p :
  run_recent home (ps ++ [p]) = (run_recent home ps ;; config.addRecentProject home p).
Proof. unfold run_recent. rewrite fold_left_app. reflexivity. Qed.

Lemma run_recent_spec home st ps :
  recent_of home st = Some [] ->
  exists st', run_recent home ps st = (inr tt, st') /\
              recent_of home st' = Some (recent_list ps).
Proof.
  intros H0. induction ps as [|p ps IH] using rev_ind.
  - exists st. split; [reflexivity|exact H0].
  - destruct IH as [st1 [Hrun Hrec]].
    destruct (addRecentProject_step home p st1 _ Hrec) as [st2 [Hadd Hrec2]].
    exists st2. rewrite run_recent_snoc, recent_list_snoc. unfold bind at 1.
    rewrite Hrun. split; [exact Hadd|exact Hrec2].
Qed.

(* ================================================================= *)
(** ** C2: recentProjects stays short and duplicate-free                *)
(* ================================================================= *)

(** C2. Starting from a global config whose [recentProjects] is empty
    (for instance no config file at all), any sequence [ps] of
    [addRecentProject] calls succeeds and leaves [recentProjects] equal
    to [recent_list ps], which has at most 10 entries and no duplicate.
    Re-inserting a path already there moves it to index 0 and keeps the
    length; inserting a new path into a full list of 10 puts it at index
    0, drops the last (oldest) entry and keeps 10; after 11 distinct
    paths the list is the last ten, newest first, the first one evicted. *)
Theorem recent_projects_bounded (home : string) (st : store)
    (Hempty : recent_of home st = Some []) (ps : list string) :
  (exists st', run_recent home ps st = (inr tt, st') /\
               recent_of home st' = Some (recent_list ps)) /\
  List.length (recent_list ps) <= 10 /\ NoDup (recent_list ps) /\
  (forall p, In p (recent_list ps) ->
     recent_list (ps ++ [p]) =
       p :: filter (not_path p) (recent_list ps) /\
     List.length (recent_list (ps ++ [p])) = List.length (recent_list ps)) /\
  (forall p, ~ In p (recent_list ps) -> List.length (recent_list ps) = 10 ->
     recent_list (ps ++ [p]) = p :: removelast (recent_list ps) /\
     List.length (recent_list (ps ++ [p])) = 10) /\
  (NoDup ps -> List.length ps = 11 -> recent_list ps = rev (tl ps)).
Proof.
  destruct (recent_list_inv ps) as [Hnd Hlen].
  split; [exact (run_recent_spec home st ps Hempty)|].
  split; [exact Hlen|]. split; [exact Hnd|].
  split; [|split].
  - intros p Hin. rewrite recent_list_snoc. apply recent_step_present; assumption.
  - intros p Hin Hfull. rewrite recent_list_snoc. apply recent_step_absent_full; assumption.
  - apply recent_list_eleven.
Qed.

Lemma recent_projects_bounded_witness :
  recent_of "/home/u" empty_store = Some [] /\
  List.length (recent_list ["/a"; "/b"; "/a"]) <= 10 /\
  NoDup (recent_list ["/a"; "/b"; "/a"]).
Proof.
  assert (H : recent_of "/home/u" empty_store = Some []) by reflexivity.
  split; [exact H|].
  destruct (recent_projects_bounded "/home/u" empty_store H ["/a"; "/b"; "/a"])
    as [_ [Hlen [Hnd _]]].
  split; assumption.
Defined.

(* ================================================================= *)
(** ** C10: loading the global config                                   *)
(* ================================================================= *)

(** C10 (as stated, refuted). [loadGlobalConfig] does not always return:
    a global config file that [JSON.parse] rejects makes it fail. *)
Lemma loadGlobalConfig_counterexample :
  ~ exists g st',
      config.loadGlobalConfig "/home/u" garbled_global_store = (inr g, st').
Proof.
  intros [g [st' H]]. rewrite loadGlobalConfig_spec in H.
  unfold garbled_global_store in H. rewrite upd_same in H. discriminate H.
Qed.

(** C10 (amended). [loadGlobalConfig] writes nothing.  Without a global
    config file it returns the defaults (blank, npm, nativewind,
    zustand, autoInstall true, gitCommit false, darkMode false, no recent
    project).  With a file holding a JSON document, each of the eight
    fields is defined and is the document's own property when it has one,
    the default otherwise.  With a file that is not JSON it fails. *)
Theorem loadGlobalConfig_defaults (home : string) (st : store) :
  match st (config.GLOBAL_CONFIG_FILE home) with
  | None =>
      config.loadGlobalConfig home st = (inr config.defaults, st) /\
      GlobalConfig.of_json config.defaults =
        Some (GlobalConfig.mk "blank" "npm" "nativewind" "zustand" true false false [])
  | Some (Doc saved) =>
      exists g, config.loadGlobalConfig home st = (inr g, st) /\
        forall k, In k GlobalConfig.keys ->
          get k g = match lookup k (own_props saved) with
                    | Some v => Some v
                    | None => get k config.defaults
                    end /\
          get k g <> None
  | Some Unparsable =>
      exists e, config.loadGlobalConfig home st = (inl e, st)
  end.
Proof.
  rewrite loadGlobalConfig_spec.
  destruct (st (config.GLOBAL_CONFIG_FILE home)) as [[saved|]|].
  - eexists. split; [reflexivity|]. intros k Hk. rewrite get_spread2.
    split; [reflexivity|].
    destruct (lookup k (own_props saved)); [discriminate|].
    exact (GlobalConfig_keys_defined _ k Hk).
  - eexists. reflexivity.
  - split; reflexivity.
Qed.

(* ================================================================= *)
(** ** Further properties of the configuration, package-manager and     *)
(**    generator code                                                   *)
(* ================================================================= *)

Lemma chars_inj a b : chars a = chars b -> a = b.
Proof.
  revert b; induction a as [|c r IH]; intros [|c' r'] H; simpl in H;
    try discriminate; [reflexivity|].
  injection H as -> H. f_equal. apply IH, H.
Qed.

Lemma length_chars s : List.length (chars s) = String.length s.
Proof. induction s as [|c r IH]; simpl; [reflexivity|]. rewrite IH. reflexivity. Qed.

Lemma list_suffix {A} (l1 l2 s t : list A) :
  l1 ++ s = l2 ++ t -> List.length s = List.length t -> s = t.
Proof.
  revert l2; induction l1 as [|x r IH]; intros [|y r2] H Hl; simpl in H.
  - exact H.
  - subst s. simpl in Hl. rewrite length_app in Hl. lia.
  - subst t. simpl in Hl. rewrite length_app in Hl. lia.
  - injection H as _ H. exact (IH _ H Hl).
Qed.

Lemma str_suffix a b s t :
  (a ++ s)%string = (b ++ t)%string -> String.length s = String.length t -> s = t.
Proof.
  intros H Hl. apply chars_inj. apply (f_equal chars) in H. rewrite !chars_app in H.
  apply (list_suffix _ _ _ _ H). rewrite !length_chars. exact Hl.
Qed.

Lemma str_prefix_cancel h a b : (h ++ a)%string = (h ++ b)%string -> a = b.
Proof. induction h as [|c r IH]; simpl; [auto|]. intros H. injection H. exact IH. Qed.

Lemma prefix_app h a b : String.prefix (h ++ a) (h ++ b) = String.prefix a b.
Proof.
  induction h as [|c r IH]; simpl; [reflexivity|].
  destruct (ascii_dec c c); [exact IH|congruence].
Qed.

Lemma manifest_file_eq p : manifest_file p = ((p ++ "/expo-geni") ++ "e.json")%string.
Proof. unfold manifest_file, path_join, CONFIG_FILE_NAME. rewrite str_app_assoc. reflexivity. Qed.

Lemma global_file_eq home :
  config.GLOBAL_CONFIG_FILE home = (home ++ "/.expo-genie/config.json")%string.
Proof.
  unfold config.GLOBAL_CONFIG_FILE, config.GLOBAL_CONFIG_DIR, path_join.
  rewrite !str_app_assoc. reflexivity.
Qed.

Lemma lock_file_eq home : config.LOCK_FILE home = (home ++ "/.expo-genie/.lock")%string.
Proof.
  unfold config.LOCK_FILE, config.GLOBAL_CONFIG_DIR, path_join.
  rewrite !str_app_assoc. reflexivity.
Qed.

Lemma manifest_ne_global p home : manifest_file p <> config.GLOBAL_CONFIG_FILE home.
Proof.
  intros H. rewrite manifest_file_eq, global_file_eq in H.
  assert (E : (home ++ "/.expo-genie/config.json")%string
              = ((home ++ "/.expo-genie/confi") ++ "g.json")%string)
    by (rewrite str_app_assoc; reflexivity).
  rewrite E in H. apply str_suffix in H; [discriminate|reflexivity].
Qed.

Lemma global_ne_lock home : config.GLOBAL_CONFIG_FILE home <> config.LOCK_FILE home.
Proof.
  rewrite global_file_eq, lock_file_eq. intros H. apply str_prefix_cancel in H. discriminate.
Qed.

Lemma global_not_below_lock home :
  String.prefix (config.LOCK_FILE home ++ "/") (config.GLOBAL_CONFIG_FILE home) = false.
Proof.
  rewrite global_file_eq, lock_file_eq, str_app_assoc, prefix_app. reflexivity.
Qed.

Lemma saveGlobalConfig_frame home cfg st r st' :
  config.saveGlobalConfig home cfg st = (r, st') ->
  forall q, q <> config.GLOBAL_CONFIG_FILE home -> st' q = st q.
Proof.
  rewrite saveGlobalConfig_spec, loadGlobalConfig_spec. intros H q Hq.
  destruct (st (config.GLOBAL_CONFIG_FILE home)) as [[j|]|]; inversion H; subst;
    try reflexivity; apply upd_other; exact Hq.
Qed.

Lemma addRecentProject_frame home p st r st' :
  config.addRecentProject home p st = (r, st') ->
  forall q, q <> config.GLOBAL_CONFIG_FILE home -> st' q = st q.
Proof.
  unfold config.addRecentProject, bind. rewrite loadGlobalConfig_spec. intros H q Hq.
  destruct (st (config.GLOBAL_CONFIG_FILE home)) as [[j|]|]; cbv beta iota in H;
    try (inversion H; reflexivity);
    match type of H with context [get "recentProjects" ?g] =>
      destruct (get "recentProjects" g) as [[]|] end;
    cbv beta iota in H; try (inversion H; reflexivity);
    exact (saveGlobalConfig_frame _ _ _ _ _ H q Hq).
Qed.

Lemma recent_of_ext home st1 st2 :
  st1 (config.GLOBAL_CONFIG_FILE home) = st2 (config.GLOBAL_CONFIG_FILE home) ->
  recent_of home st1 = recent_of home st2.
Proof. unfold recent_of. rewrite !loadGlobalConfig_spec. intros ->. reflexivity. Qed.

(** X1. The project manifest and the global configuration are separate files: saving a manifest (anywhere) leaves what [loadGlobalConfig] returns unchanged, and saving the global configuration leaves what [loadProjectConfig] returns unchanged. *)
Theorem project_global_independent home p q c g st :
  fst (config.loadGlobalConfig home (snd (config.saveProjectConfig p c st))) =
  fst (config.loadGlobalConfig home st) /\
  fst (config.loadProjectConfig q (snd (config.saveGlobalConfig home g st))) =
  fst (config.loadProjectConfig q st).
Proof.
  split.
  - rewrite !loadGlobalConfig_spec. cbn [fst snd config.saveProjectConfig fileSystem.writeJson].
    rewrite upd_other; [reflexivity|].
    intros H. apply (manifest_ne_global p home). symmetry. exact H.
  - destruct (config.saveGlobalConfig home g st) as [r st'] eqn:E. cbn [snd].
    rewrite !loadProjectConfig_spec. cbn [fst].
    rewrite (saveGlobalConfig_frame _ _ _ _ _ E); [reflexivity|apply manifest_ne_global].
Qed.

(** X2. Initialising an existing project ([saveProjectConfig] of [createDefaultConfig ... 'existing' ...] then [addRecentProject]) succeeds; afterwards [isExpoGenieProject] holds, the manifest reads back as version 1.0.0 with the given name, libraries and package manager, no features, screens or components, and preferences (pm, true, false, true, false), and the project heads the recent-projects list. *)
Theorem init_registers_project home p name u s pm st l
    (Hrec : recent_of home st = Some l) :
  exists st',
    init_existing home p name (UILibrary_name u) (StateManagement_name s) pm st =
      (inr tt, st') /\
    config.isExpoGenieProject p st' = (inr true, st') /\
    (exists j, config.loadProjectConfig p st' = (inr (Some j), st') /\
       ExpoGenieConfig.of_json j =
         Some (ExpoGenieConfig.mk "1.0.0" name (Some "existing") u s []
                 (Preferences.mk pm true false true false) [] [])) /\
    recent_of home st' = Some (recent_step p l).
Proof.
  set (j := config.createDefaultConfig name "existing" (UILibrary_name u)
              (StateManagement_name s) pm).
  set (st1 := upd st (manifest_file p) (Doc j)).
  assert (Hrec1 : recent_of home st1 = Some l).
  { rewrite <- Hrec. apply recent_of_ext. unfold st1. apply upd_other.
    intros H. apply (manifest_ne_global p home). symmetry. exact H. }
  destruct (addRecentProject_step home p st1 l Hrec1) as [st' [Hrun Hr]].
  assert (Hm : st' (manifest_file p) = Some (Doc j)).
  { rewrite (addRecentProject_frame _ _ _ _ _ Hrun) by apply manifest_ne_global.
    apply upd_same. }
  exists st'. split; [|split; [|split]].
  - exact Hrun.
  - unfold config.isExpoGenieProject, fileSystem.fileExists.
    change (path_join p CONFIG_FILE_NAME) with (manifest_file p). rewrite Hm. reflexivity.
  - exists j. rewrite loadProjectConfig_spec, Hm. split; [reflexivity|].
    unfold j. cbn -[UILibrary_of UILibrary_name StateManagement_of StateManagement_name].
    rewrite UILibrary_roundtrip, StateManagement_roundtrip. reflexivity.
  - exact Hr.
Qed.

Lemma init_registers_project_witness :
  recent_of "/home/u" empty_store = Some [] /\
  exists st',
    init_existing "/home/u" "/work/app" "app" (UILibrary_name ui_paper)
      (StateManagement_name sm_redux) "yarn" empty_store = (inr tt, st') /\
    config.isExpoGenieProject "/work/app" st' = (inr true, st') /\
    (exists j, config.loadProjectConfig "/work/app" st' = (inr (Some j), st') /\
       ExpoGenieConfig.of_json j =
         Some (ExpoGenieConfig.mk "1.0.0" "app" (Some "existing") ui_paper sm_redux []
                 (Preferences.mk "yarn" true false true false) [] [])) /\
    recent_of "/home/u" st' = Some (recent_step "/work/app" []).
Proof.
  split; [reflexivity|].
  apply (init_registers_project "/home/u" "/work/app" "app" ui_paper sm_redux "yarn"
           empty_store []).
  reflexivity.
Defined.

Lemma existsb_not_in n l : ~ In n l -> existsb (String.eqb n) l = false.
Proof.
  intros H. destruct (existsb (String.eqb n) l) eqn:E; [|reflexivity].
  apply existsb_exists in E. destruct E as [x [Hx Heq]].
  apply String.eqb_eq in Heq. subst x. contradiction.
Qed.

Lemma lookup_filter_key k n l :
  lookup k (filter (fun kv => negb (String.eqb (fst kv) n)) l) =
  if String.eqb k n then None else lookup k l.
Proof.
  induction l as [|[k' v] r IH]; simpl.
  - destruct (String.eqb k n); reflexivity.
  - destruct (String.eqb k' n) eqn:E1; simpl; rewrite IH.
    + apply String.eqb_eq in E1. subst k'.
      destruct (String.eqb k n) eqn:E2; [reflexivity|].
      destruct (lookup k r); reflexivity.
    + destruct (String.eqb k n) eqn:E2; [|reflexivity].
      apply String.eqb_eq in E2. subst k.
      rewrite String.eqb_sym, E1. reflexivity.
Qed.

(** X3. [removeFeature] does nothing when there is no manifest, and nothing when the feature is absent and its name is not an [Object.prototype] member; when the manifest has no [features] key it throws (a TypeError on [undefined]). *)
Theorem removeFeature_noop inh p n st :
  (st (manifest_file p) = None -> config.removeFeature inh p n st = (inr tt, st)) /\
  (forall l fl, st (manifest_file p) = Some (Doc (JObj l)) ->
     lookup "features" l = Some (JObj fl) -> lookup n fl = None ->
     ~ In n object_proto_keys -> config.removeFeature inh p n st = (inr tt, st)) /\
  (forall l, st (manifest_file p) = Some (Doc (JObj l)) -> lookup "features" l = None ->
     exists e, config.removeFeature inh p n st = (inl e, st)).
Proof.
  unfold config.removeFeature, bind. rewrite loadProjectConfig_spec.
  split; [|split].
  - intros Hm. rewrite Hm. reflexivity.
  - intros l fl Hm Hf Hn Hk. rewrite Hm. cbv beta iota.
    change (truthy (JObj l)) with true. cbv beta iota. rewrite Hf.
    unfold config.prop_truthy. rewrite Hn, (existsb_not_in _ _ Hk). reflexivity.
  - intros l Hm Hf. rewrite Hm. cbv beta iota.
    change (truthy (JObj l)) with true. cbv beta iota. rewrite Hf.
    eexists. reflexivity.
Qed.

Lemma removeFeature_noop_witness :
  config.removeFeature no_inherited "/work/app" "maps" manifest_store =
    (inr tt, manifest_store).
Proof.
  apply (proj1 (proj2 (removeFeature_noop no_inherited "/work/app" "maps" manifest_store))
           sample_members
           [("camera", FeatureConfig.to_json
               (FeatureConfig.mk true "1.0.0" "2024-01-01T00:00:00Z" "nativewind"
                  "zustand" ["src/hooks/useCamera.ts"] ["expo-camera"]))]).
  - reflexivity.
  - reflexivity.
  - reflexivity.
  - simpl. intuition discriminate.
Defined.

(** X4. [addFeature] then [removeFeature] of the same name leaves the manifest's [features] object without that name, every other feature and every other top-level key as before, and every other file untouched. *)
Theorem add_then_remove inh p n fc st l fl
    (Hm : st (manifest_file p) = Some (Doc (JObj l)))
    (Hf : lookup "features" l = Some (JObj fl)) :
  exists st1 st2 l' fl',
    config.addFeature p n fc st = (inr tt, st1) /\
    config.removeFeature inh p n st1 = (inr tt, st2) /\
    st2 (manifest_file p) = Some (Doc (JObj l')) /\
    lookup "features" l' = Some (JObj fl') /\ lookup n fl' = None /\
    (forall k, k <> n -> lookup k fl' = lookup k fl) /\
    (forall k, k <> "features" -> lookup k l' = lookup k l) /\
    (forall q, q <> manifest_file p -> st2 q = st q).
Proof.
  set (v := FeatureConfig.to_json fc).
  assert (HF : exists F1, assign (Some (JObj fl)) n v = inr (JObj F1) /\
                 config.prop_truthy inh (JObj F1) n = true /\
                 (forall k, k <> n -> lookup k F1 = lookup k fl)).
  { unfold assign.
    destruct (String.eqb n "__proto__" &&
              negb (existsb (fun kv => String.eqb (fst kv) n) fl)) eqn:Ep.
    - exists fl. split; [reflexivity|]. split; [|reflexivity].
      apply andb_true_iff in Ep as [Ep Ex]. apply String.eqb_eq in Ep. subst n.
      apply negb_true_iff in Ex. unfold config.prop_truthy.
      assert (Hl : lookup "__proto__" fl = None).
      { clear -Ex. induction fl as [|[k' x] r IH]; [reflexivity|].
        cbn [existsb fst] in Ex. apply orb_false_iff in Ex as [E1 E2]. cbn [lookup].
        rewrite (IH E2). rewrite String.eqb_sym, E1. reflexivity. }
      rewrite Hl. reflexivity.
    - exists (obj_set n v fl). split; [reflexivity|]. split.
      + unfold config.prop_truthy. rewrite lookup_obj_set, String.eqb_refl. reflexivity.
      + intros k Hk. apply String.eqb_neq in Hk. rewrite lookup_obj_set, Hk. reflexivity. }
  destruct HF as (F1 & Ha & Ht & Hk1).
  set (L1 := obj_set "features" (JObj F1) l).
  set (st1 := upd st (manifest_file p) (Doc (JObj L1))).
  set (F2 := filter (fun kv => negb (String.eqb (fst kv) n)) F1).
  set (L2 := obj_set "features" (JObj F2) L1).
  assert (Hadd : config.addFeature p n fc st = (inr tt, st1)).
  { unfold config.addFeature. rewrite addEntry_spec, Hm.
    change (truthy (JObj l)) with true. cbv beta iota.
    unfold assign_in. rewrite Hf. fold v. rewrite Ha. reflexivity. }
  assert (HL1 : lookup "features" L1 = Some (JObj F1)).
  { unfold L1. rewrite lookup_obj_set, String.eqb_refl. reflexivity. }
  assert (Hrem : config.removeFeature inh p n st1 =
                 (inr tt, upd st1 (manifest_file p) (Doc (JObj L2)))).
  { unfold config.removeFeature, bind. rewrite loadProjectConfig_spec.
    unfold st1 at 1. rewrite upd_same. cbv beta iota.
    change (truthy (JObj L1)) with true. cbv beta iota. rewrite HL1.
    cbv beta iota. rewrite Ht. reflexivity. }
  exists st1, (upd st1 (manifest_file p) (Doc (JObj L2))), L2, F2.
  split; [exact Hadd|]. split; [exact Hrem|]. split; [apply upd_same|].
  split; [unfold L2; rewrite lookup_obj_set, String.eqb_refl; reflexivity|].
  split; [unfold F2; rewrite lookup_filter_key, String.eqb_refl; reflexivity|].
  split; [|split].
  - intros k Hk. unfold F2. rewrite lookup_filter_key.
    rewrite (Hk1 k Hk). apply String.eqb_neq in Hk. rewrite Hk. reflexivity.
  - intros k Hk. apply String.eqb_neq in Hk. unfold L2, L1.
    rewrite !lookup_obj_set, Hk. reflexivity.
  - intros q Hq. rewrite upd_other by exact Hq. unfold st1.
    apply upd_other. exact Hq.
Qed.

Lemma add_then_remove_witness :
  exists st1 st2 l' fl',
    config.addFeature "/work/app" "maps" sample_feature manifest_store = (inr tt, st1) /\
    config.removeFeature no_inherited "/work/app" "maps" st1 = (inr tt, st2) /\
    st2 (manifest_file "/work/app") = Some (Doc (JObj l')) /\
    lookup "features" l' = Some (JObj fl') /\ lookup "maps" fl' = None /\
    (forall k, k <> "maps" -> lookup k fl' = lookup k
       [("camera", FeatureConfig.to_json
           (FeatureConfig.mk true "1.0.0" "2024-01-01T00:00:00Z" "nativewind"
              "zustand" ["src/hooks/useCamera.ts"] ["expo-camera"]))]) /\
    (forall k, k <> "features" -> lookup k l' = lookup k sample_members) /\
    (forall q, q <> manifest_file "/work/app" -> st2 q = manifest_store q).
Proof.
  apply (add_then_remove no_inherited "/work/app" "maps" sample_feature manifest_store
           sample_members); reflexivity.
Defined.

(** X5. After [updateUILibrary p u] (resp. [updateStateManagement p sm]) on an existing manifest, [getUILibrary] reads [u] back, or the default nativewind when [u] is empty (resp. [sm], or zustand). *)
Theorem library_after_update p st e u sm
    (Hm : st (manifest_file p) = Some (Doc e)) (He : truthy e = true) :
  (exists st', config.updateUILibrary p u st = (inr tt, st') /\
     config.getUILibrary p st' =
       (inr (if String.eqb u "" then JStr "nativewind" else JStr u), st')) /\
  (exists st', config.updateStateManagement p sm st = (inr tt, st') /\
     config.getStateManagement p st' =
       (inr (if String.eqb sm "" then JStr "zustand" else JStr sm), st')).
Proof.
  split; eexists; split.
  - unfold config.updateUILibrary. rewrite updateProjectConfig_spec, Hm, He. reflexivity.
  - unfold config.getUILibrary, bind. rewrite loadProjectConfig_spec, upd_same.
    cbv beta iota. unfold config.or_default. rewrite get_spread2. cbn.
    destruct (String.eqb u ""); reflexivity.
  - unfold config.updateStateManagement. rewrite updateProjectConfig_spec, Hm, He.
    reflexivity.
  - unfold config.getStateManagement, bind. rewrite loadProjectConfig_spec, upd_same.
    cbv beta iota. unfold config.or_default. rewrite get_spread2. cbn.
    destruct (String.eqb sm ""); reflexivity.
Qed.

Lemma library_after_update_witness :
  (exists st', config.updateUILibrary "/work/app" "paper" manifest_store = (inr tt, st') /\
     config.getUILibrary "/work/app" st' =
       (inr (if String.eqb "paper" "" then JStr "nativewind" else JStr "paper"), st')) /\
  (exists st', config.updateStateManagement "/work/app" "" manifest_store = (inr tt, st') /\
     config.getStateManagement "/work/app" st' =
       (inr (if String.eqb "" "" then JStr "zustand" else JStr ""), st')).
Proof.
  apply (library_after_update "/work/app" manifest_store
           (ExpoGenieConfig.to_json sample_manifest)); reflexivity.
Defined.

(** X6. [isExpoGenieProject p] is false exactly when [loadProjectConfig p] finds no manifest, and it is true right after [saveProjectConfig p]. *)
Theorem genie_project_check p c st :
  (config.isExpoGenieProject p st = (inr false, st) <->
   config.loadProjectConfig p st = (inr None, st)) /\
  config.isExpoGenieProject p (snd (config.saveProjectConfig p c st)) =
    (inr true, snd (config.saveProjectConfig p c st)).
Proof.
  unfold config.isExpoGenieProject, fileSystem.fileExists.
  change (path_join p CONFIG_FILE_NAME) with (manifest_file p).
  split.
  - rewrite loadProjectConfig_spec.
    destruct (st (manifest_file p)) as [[]|]; split; intros H;
      try reflexivity; discriminate H.
  - cbn [snd config.saveProjectConfig fileSystem.writeJson].
    change (path_join p CONFIG_FILE_NAME) with (manifest_file p).
    rewrite upd_same. reflexivity.
Qed.

(** X7. [createLock] then [releaseLock] succeed; [isLocked] is true in between and false after; the cycle touches only the lock path and what lies below it, and in particular keeps the global configuration file. *)
Theorem lock_cycle home now st :
  exists st1 st2,
    config.createLock home now st = (inr tt, st1) /\
    config.isLocked home st1 = (inr true, st1) /\
    config.releaseLock home st1 = (inr tt, st2) /\
    config.isLocked home st2 = (inr false, st2) /\
    (forall q, q <> config.LOCK_FILE home -> st1 q = st q) /\
    (forall q, q <> config.LOCK_FILE home ->
       String.prefix (config.LOCK_FILE home ++ "/") q = false -> st2 q = st q) /\
    st2 (config.GLOBAL_CONFIG_FILE home) = st (config.GLOBAL_CONFIG_FILE home).
Proof.
  set (L := config.LOCK_FILE home).
  set (st1 := upd st L (Doc (JNum now))).
  set (st2 := fun q => if String.eqb q L || String.prefix (L ++ "/") q then None else st1 q).
  assert (Hfar : forall q, q <> L -> String.prefix (L ++ "/") q = false -> st2 q = st q).
  { intros q Hq Hp. unfold st2. apply String.eqb_neq in Hq. rewrite Hq, Hp. simpl.
    unfold st1, upd. rewrite Hq. reflexivity. }
  exists st1, st2.
  split; [reflexivity|]. split.
  { unfold config.isLocked, fileSystem.fileExists. fold L. unfold st1. rewrite upd_same.
    reflexivity. }
  split.
  { unfold config.releaseLock, bind, fileSystem.fileExists. fold L. unfold st1 at 1.
    rewrite upd_same. reflexivity. }
  split.
  { unfold config.isLocked, fileSystem.fileExists. fold L. unfold st2.
    rewrite String.eqb_refl. reflexivity. }
  split; [|split].
  - intros q Hq. unfold st1. apply upd_other. exact Hq.
  - exact Hfar.
  - apply Hfar; [apply global_ne_lock|apply global_not_below_lock].
Qed.

(** Reading a key back after [saveGlobalConfig] merges a partial object. *)
Lemma save_partial_reload home st c
    (Hok : st (config.GLOBAL_CONFIG_FILE home) <> Some Unparsable) :
  exists g st' g',
    config.loadGlobalConfig home st = (inr g, st) /\
    config.saveGlobalConfig home (JObj c) st = (inr tt, st') /\
    config.loadGlobalConfig home st' = (inr g', st') /\
    (forall k, get k g' = match lookup k c with Some v => Some v | None => get k g end).
Proof.
  rewrite loadGlobalConfig_spec.
  destruct (st (config.GLOBAL_CONFIG_FILE home)) as [[j|]|] eqn:E;
    [|contradiction|].
  - eexists _, _, _. split; [reflexivity|].
    rewrite saveGlobalConfig_spec, loadGlobalConfig_spec, E.
    split; [reflexivity|]. split; [apply load_after_save_global|].
    intros k. rewrite get_reload. cbn [own_props].
    destruct (lookup k c); [reflexivity|].
    rewrite get_spread2. unfold spread. cbn [own_props fold_left].
    unfold spread_into at 1. rewrite lookup_fold_set.
    destruct (lookup k (own_props j)) eqn:Ej; [reflexivity|].
    unfold spread_into. rewrite lookup_fold_set. cbn [lookup own_props].
    destruct (lookup k (own_props config.defaults)); reflexivity.
  - eexists _, _, _. split; [reflexivity|].
    rewrite saveGlobalConfig_spec, loadGlobalConfig_spec, E.
    split; [reflexivity|]. split; [apply load_after_save_global|].
    intros k. rewrite get_reload. cbn [own_props].
    destruct (lookup k c); [reflexivity|].
    change (get k config.defaults) with (lookup k (own_props config.defaults)).
    destruct (lookup k (own_props config.defaults)); reflexivity.
Qed.

(** X8. [config set k v] with a non-empty key stores [v] as a string (never a boolean or number): the reloaded global configuration maps [k] to the string [v] and every other key to what it read before. *)
Theorem config_set_stores_string home st k v (Hk : k <> "")
    (Hok : st (config.GLOBAL_CONFIG_FILE home) <> Some Unparsable) :
  exists g st' g',
    config.loadGlobalConfig home st = (inr g, st) /\
    commands.configCommand home "set" (Some k) (Some v) st = (inr tt, st') /\
    config.loadGlobalConfig home st' = (inr g', st') /\
    get k g' = Some (JStr v) /\
    (forall k', k' <> k -> get k' g' = get k' g).
Proof.
  destruct (save_partial_reload home st [(k, JStr v)] Hok)
    as (g & st' & g' & Hl & Hs & Hl' & Hget).
  exists g, st', g'. split; [exact Hl|]. split.
  { unfold commands.configCommand, bind. rewrite Hl. cbv beta iota.
    change (String.eqb "set" "set") with true. cbv beta iota.
    apply String.eqb_neq in Hk. rewrite Hk. exact Hs. }
  split; [exact Hl'|]. split.
  - rewrite Hget. cbn [lookup]. rewrite String.eqb_refl. reflexivity.
  - intros k' Hk'. rewrite Hget. cbn [lookup]. apply String.eqb_neq in Hk'.
    rewrite Hk'. reflexivity.
Qed.

Lemma config_set_stores_string_witness :
  exists g st' g',
    config.loadGlobalConfig "/home/u" empty_store = (inr g, empty_store) /\
    commands.configCommand "/home/u" "set" (Some "autoInstall") (Some "false")
      empty_store = (inr tt, st') /\
    config.loadGlobalConfig "/home/u" st' = (inr g', st') /\
    get "autoInstall" g' = Some (JStr "false") /\
    (forall k', k' <> "autoInstall" -> get k' g' = get k' g).
Proof. apply config_set_stores_string; discriminate. Defined.

(** X9. [config reset] writes the four keys defaultTemplate = blank, defaultPackageManager = npm, autoInstall = true and gitCommit = false over the existing configuration; every other key keeps its value. *)
Theorem config_reset_scope home st
    (Hok : st (config.GLOBAL_CONFIG_FILE home) <> Some Unparsable) :
  exists g st' g',
    config.loadGlobalConfig home st = (inr g, st) /\
    commands.configCommand home "reset" None None st = (inr tt, st') /\
    config.loadGlobalConfig home st' = (inr g', st') /\
    get "defaultTemplate" g' = Some (JStr "blank") /\
    get "defaultPackageManager" g' = Some (JStr "npm") /\
    get "autoInstall" g' = Some (JBool true) /\
    get "gitCommit" g' = Some (JBool false) /\
    (forall k, ~ In k ["defaultTemplate"; "defaultPackageManager"; "autoInstall"; "gitCommit"] ->
       get k g' = get k g).
Proof.
  destruct (save_partial_reload home st
              [("defaultTemplate", JStr "blank"); ("defaultPackageManager", JStr "npm");
               ("autoInstall", JBool true); ("gitCommit", JBool false)] Hok)
    as (g & st' & g' & Hl & Hs & Hl' & Hget).
  exists g, st', g'. split; [exact Hl|]. split.
  { unfold commands.configCommand, bind. rewrite Hl. cbv beta iota.
    change (String.eqb "reset" "set") with false.
    change (String.eqb "reset" "get") with false.
    change (String.eqb "reset" "list") with false.
    change (String.eqb "reset" "reset") with true. cbv beta iota. exact Hs. }
  split; [exact Hl'|].
  split; [rewrite Hget; reflexivity|]. split; [rewrite Hget; reflexivity|].
  split; [rewrite Hget; reflexivity|]. split; [rewrite Hget; reflexivity|].
  intros k Hk. rewrite Hget. simpl in Hk.
  destruct (String.eqb k "defaultTemplate") eqn:E1;
    [apply String.eqb_eq in E1; subst; tauto|].
  destruct (String.eqb k "defaultPackageManager") eqn:E2;
    [apply String.eqb_eq in E2; subst; tauto|].
  destruct (String.eqb k "autoInstall") eqn:E3;
    [apply String.eqb_eq in E3; subst; tauto|].
  destruct (String.eqb k "gitCommit") eqn:E4;
    [apply String.eqb_eq in E4; subst; tauto|].
  cbn [lookup]. rewrite E1, E2, E3, E4. reflexivity.
Qed.

Lemma config_reset_scope_witness :
  exists g st' g',
    config.loadGlobalConfig "/home/u" empty_store = (inr g, empty_store) /\
    commands.configCommand "/home/u" "reset" None None empty_store = (inr tt, st') /\
    config.loadGlobalConfig "/home/u" st' = (inr g', st') /\
    get "defaultTemplate" g' = Some (JStr "blank") /\
    get "defaultPackageManager" g' = Some (JStr "npm") /\
    get "autoInstall" g' = Some (JBool true) /\
    get "gitCommit" g' = Some (JBool false) /\
    (forall k, ~ In k ["defaultTemplate"; "defaultPackageManager"; "autoInstall"; "gitCommit"] ->
       get k g' = get k g).
Proof. apply config_reset_scope. discriminate. Defined.

(** X10. [install] with a package list never runs the bare install command; npm passes [install], the save flag and every package as given (empty names included), while yarn, pnpm and bun run [add], their dev flag when [isDev], and the packages with empty names dropped, so none of their arguments is empty. *)
Theorem install_arguments pm ps isDev :
  packageManager.install_commands (Some ps) isDev pm <>
    packageManager.install_commands None isDev pm /\
  match pm with
  | npm => packageManager.install_commands (Some ps) isDev pm =
             "install" :: (if isDev then "--save-dev" else "--save") :: ps
  | _ => packageManager.install_commands (Some ps) isDev pm =
           "add" :: (if isDev then [packageManager.devFlag pm] else [])
             ++ filter packageManager.nonempty ps /\
         Forall (fun a => a <> "") (packageManager.install_commands (Some ps) isDev pm)
  end.
Proof.
  assert (Hne : forall l, Forall (fun a => a <> "") (filter packageManager.nonempty l)).
  { intros l. apply Forall_forall. intros a Ha. apply filter_In in Ha as [_ Ha].
    unfold packageManager.nonempty in Ha. apply negb_true_iff, String.eqb_neq in Ha.
    exact Ha. }
  destruct pm, isDev; cbn [packageManager.install_commands];
    (split; [intros H; inversion H|]); try reflexivity;
    (split; [reflexivity|]);
    change (filter packageManager.nonempty (?a :: ?b :: ps))
      with (filter packageManager.nonempty ([a; b] ++ ps));
    rewrite filter_app; cbn; try apply Forall_cons; try apply Forall_cons;
    try discriminate; apply Hne.
Qed.

Lemma of_chars_chars s : of_chars (chars s) = s.
Proof. induction s as [|c r IH]; simpl; [reflexivity|]. rewrite IH. reflexivity. Qed.

Lemma of_chars_app a b : of_chars (a ++ b) = (of_chars a ++ of_chars b)%string.
Proof. induction a as [|c r IH]; simpl; [reflexivity|]. rewrite IH. reflexivity. Qed.

(** A string whose first and last characters are not white space is
    its own [trim]. *)
Lemma trim_noop s :
  (forall c r, chars s = c :: r -> is_ws c = false) ->
  (forall d r, rev (chars s) = d :: r -> is_ws d = false) ->
  trim s = s.
Proof.
  intros Hf Hl. unfold trim.
  destruct (chars s) as [|c r] eqn:E.
  - destruct s; [reflexivity|discriminate].
  - cbn [drop_ws]. rewrite (Hf c r eq_refl).
    destruct (rev (c :: r)) as [|d r'] eqn:E'.
    + simpl in E'. destruct (rev r); discriminate.
    + cbn [drop_ws]. rewrite (Hl d r' eq_refl). rewrite <- E', rev_involutive, <- E.
      apply of_chars_chars.
Qed.

(** The last character of a join of non-empty words without white space
    is not white space. *)
Lemma concat_last ps :
  ps <> [] -> Forall (fun p => p <> "" /\ no_ws p = true) ps ->
  exists d r, rev (chars (String.concat " " ps)) = d :: r /\ is_ws d = false.
Proof.
  induction ps as [|p ps IH]; intros Hn Hf; [congruence|].
  inversion Hf as [|? ? [Hp Hw] Hf']; subst.
  destruct ps as [|q qs].
  - simpl. destruct (rev (chars p)) as [|d r] eqn:E.
    + destruct p; [congruence|]. simpl in E. destruct (rev (chars p)); discriminate.
    + exists d, r. split; [reflexivity|].
      assert (Hin : In d (chars p)) by (apply in_rev; rewrite E; left; reflexivity).
      unfold no_ws in Hw. rewrite forallb_forall in Hw.
      specialize (Hw d Hin). apply negb_true_iff in Hw. exact Hw.
  - destruct (IH ltac:(discriminate) Hf') as (d & r & E & Hd).
    change (String.concat " " (p :: q :: qs))
      with (p ++ " " ++ String.concat " " (q :: qs))%string.
    rewrite !chars_app, !rev_app_distr, E.
    exists d, (r ++ rev (chars " ") ++ rev (chars p)).
    split; [rewrite <- app_assoc; reflexivity|exact Hd].
Qed.

(** X11. For packages that are non-empty and free of white space, [getInstallCommand] is the base command, then the dev flag if [isDev], then the packages joined by single spaces; without the flag and with packages, two spaces separate the base command from the packages, since [trim] removes only outer white space. *)
Theorem getInstallCommand_spacing pm ps isDev
    (Hps : Forall (fun p => p <> "" /\ no_ws p = true) ps) :
  packageManager.getInstallCommand pm ps isDev =
  match ps, isDev with
  | [], false => packageManager.baseCommand pm
  | [], true => (packageManager.baseCommand pm ++ " " ++ packageManager.devFlag pm)%string
  | _ :: _, false =>
      (packageManager.baseCommand pm ++ "  " ++ String.concat " " ps)%string
  | _ :: _, true =>
      (packageManager.baseCommand pm ++ " " ++ packageManager.devFlag pm ++ " "
         ++ String.concat " " ps)%string
  end.
Proof.
  destruct ps as [|p ps'].
  - destruct pm, isDev; reflexivity.
  - destruct (concat_last (p :: ps') ltac:(discriminate) Hps) as (d & r & E & Hd).
    unfold packageManager.getInstallCommand.
    destruct isDev; apply trim_noop;
      (intros c r' Hc; destruct pm; cbn in Hc; injection Hc as <- _; reflexivity) ||
      (intros d' r' Hc; rewrite !chars_app, !rev_app_distr, E in Hc;
       injection Hc as <- _; exact Hd).
Qed.

Lemma getInstallCommand_spacing_witness :
  Forall (fun p => p <> "" /\ no_ws p = true) ["axios"] /\
  packageManager.getInstallCommand npm ["axios"] false = "npm install  axios".
Proof.
  assert (H : Forall (fun p => p <> "" /\ no_ws p = true) ["axios"])
    by (repeat constructor; discriminate).
  split; [exact H|]. exact (getInstallCommand_spacing npm ["axios"] false H).
Defined.

Lemma run_from ops t :
  fold_left (fun t o => TemplateBuilder.apply o t) ops t =
  TemplateBuilder.mkT
    (TemplateBuilder.imports t ++ map TemplateBuilder.payload (TemplateBuilder.calls_of 0 ops))
    (fold_left TemplateBuilder.push
       (map TemplateBuilder.payload (TemplateBuilder.calls_of 1 ops)) (TemplateBuilder.interfaces t))
    (fold_left (fun _ s => Some s)
       (map TemplateBuilder.payload (TemplateBuilder.calls_of 2 ops)) (TemplateBuilder.component t))
    (fold_left TemplateBuilder.push
       (map TemplateBuilder.payload (TemplateBuilder.calls_of 3 ops)) (TemplateBuilder.hooks t))
    (fold_left (fun _ s => Some s)
       (map TemplateBuilder.payload (TemplateBuilder.calls_of 4 ops)) (TemplateBuilder.styles t))
    (fold_left TemplateBuilder.push
       (map TemplateBuilder.payload (TemplateBuilder.calls_of 5 ops)) (TemplateBuilder.exports t)).
Proof.
  revert t; induction ops as [|o ops IH]; intros t.
  - destruct t; simpl. rewrite app_nil_r. reflexivity.
  - simpl. rewrite IH. destruct o; simpl; rewrite <- ?app_assoc; reflexivity.
Qed.

(** X12. The template a [TemplateBuilder] chain builds depends only on the order of the calls to each method, not on how calls to different methods are interleaved. *)
Theorem build_call_order ops1 ops2
    (H : forall k, TemplateBuilder.calls_of k ops1 = TemplateBuilder.calls_of k ops2) :
  TemplateBuilder.run ops1 = TemplateBuilder.run ops2 /\
  TemplateBuilder.build (TemplateBuilder.run ops1) = TemplateBuilder.build (TemplateBuilder.run ops2).
Proof.
  assert (E : TemplateBuilder.run ops1 = TemplateBuilder.run ops2).
  { unfold TemplateBuilder.run. rewrite !run_from, !H. reflexivity. }
  split; [exact E|rewrite E; reflexivity].
Qed.

Lemma build_call_order_witness :
  (forall k, TemplateBuilder.calls_of k
               [TemplateBuilder.SetComponent "const A = () => null;";
                TemplateBuilder.AddImport "import React from 'react';"] =
             TemplateBuilder.calls_of k
               [TemplateBuilder.AddImport "import React from 'react';";
                TemplateBuilder.SetComponent "const A = () => null;"]) /\
  TemplateBuilder.build (TemplateBuilder.run
    [TemplateBuilder.SetComponent "const A = () => null;";
     TemplateBuilder.AddImport "import React from 'react';"]) =
  TemplateBuilder.build (TemplateBuilder.run
    [TemplateBuilder.AddImport "import React from 'react';";
     TemplateBuilder.SetComponent "const A = () => null;"]).
Proof.
  assert (H : forall k, TemplateBuilder.calls_of k
               [TemplateBuilder.SetComponent "const A = () => null;";
                TemplateBuilder.AddImport "import React from 'react';"] =
             TemplateBuilder.calls_of k
               [TemplateBuilder.AddImport "import React from 'react';";
                TemplateBuilder.SetComponent "const A = () => null;"]).
  { intros k. destruct k as [|[|[|k]]]; reflexivity. }
  split; [exact H|]. exact (proj2 (build_call_order _ _ H)).
Defined.

Lemma split_nl_nonempty s : split_nl s <> [].
Proof.
  destruct s as [|c r]; simpl; [discriminate|].
  destruct (Ascii.eqb c newline); [discriminate|]. destruct (split_nl r); discriminate.
Qed.

Lemma last_import_spec lines i acc :
  (existsb (String.prefix "import ") lines = true ->
   exists pre x post, lines = pre ++ x :: post /\ String.prefix "import " x = true /\
     Forall (fun l => String.prefix "import " l = false) post /\
     BaseGenerator.last_import i acc lines = i + List.length pre) /\
  (existsb (String.prefix "import ") lines = false ->
   BaseGenerator.last_import i acc lines = acc).
Proof.
  revert i acc; induction lines as [|l r IH]; intros i acc; simpl.
  - split; [discriminate|reflexivity].
  - destruct (existsb (String.prefix "import ") r) eqn:Er.
    + rewrite orb_true_r. split; [|discriminate]. intros _.
      destruct (proj1 (IH (S i) (if String.prefix "import " l then i else acc)) eq_refl)
        as (pre & x & post & -> & Hx & Hp & Hv).
      exists (l :: pre), x, post. split; [reflexivity|]. split; [exact Hx|].
      split; [exact Hp|]. rewrite Hv. simpl. lia.
    + rewrite orb_false_r. rewrite (proj2 (IH _ _) eq_refl). split.
      * intros Hl. rewrite Hl. exists [], l, r. split; [reflexivity|].
        split; [exact Hl|]. split; [|simpl; lia].
        apply Forall_forall. intros y Hy.
        destruct (String.prefix "import " y) eqn:Ey; [|reflexivity].
        assert (existsb (String.prefix "import ") r = true)
          by (apply existsb_exists; exists y; split; assumption).
        congruence.
      * intros Hl. rewrite Hl. reflexivity.
Qed.

(** X13. [addImportToFile] fails with 'Failed to read file' on a missing file; otherwise it inserts the import as a new line right after the last line starting with 'import ', or after the first line when there is no such line, and keeps every other line in order. *)
Theorem addImportToFile_placement p imp st :
  match st p with
  | None => BaseGenerator.addImportToFile p imp st =
              (inl ("Failed to read file: " ++ p)%string, st)
  | Some c =>
      exists pre post,
        split_nl c = pre ++ post /\
        Forall (fun l => String.prefix "import " l = false) post /\
        (if existsb (String.prefix "import ") (split_nl c)
         then exists pre0 x, pre = pre0 ++ [x] /\ String.prefix "import " x = true
         else List.length pre = 1) /\
        BaseGenerator.addImportToFile p imp st =
          (inr tt, fileText.tupd st p (String.concat nl (pre ++ imp :: post)))
  end.
Proof.
  unfold BaseGenerator.addImportToFile, fileText.readFile.
  destruct (st p) as [c|] eqn:Est; [|reflexivity].
  destruct (existsb (String.prefix "import ") (split_nl c)) eqn:Ex.
  - destruct (proj1 (last_import_spec (split_nl c) 0 0) Ex)
      as (pre0 & x & post & E & Hx & Hp & Hv).
    exists (pre0 ++ [x]), post. rewrite E.
    split; [rewrite <- app_assoc; reflexivity|]. split; [exact Hp|].
    split; [exists pre0, x; split; [reflexivity|exact Hx]|].
    rewrite <- E, Hv, E, Nat.add_0_l.
    replace (S (List.length pre0)) with (List.length (pre0 ++ [x]))
      by (rewrite length_app; simpl; lia).
    replace (pre0 ++ x :: post) with ((pre0 ++ [x]) ++ post)
      by (rewrite <- app_assoc; reflexivity).
    rewrite firstn_app, firstn_all, Nat.sub_diag, firstn_O, app_nil_r.
    rewrite skipn_app, skipn_all, Nat.sub_diag, skipn_O. reflexivity.
  - rewrite (proj2 (last_import_spec (split_nl c) 0 0) Ex).
    destruct (split_nl c) as [|l r] eqn:E; [exfalso; exact (split_nl_nonempty c E)|].
    exists [l], r. split; [reflexivity|]. split; [|split; reflexivity].
    simpl in Ex. apply orb_false_iff in Ex as [_ Ex].
    apply Forall_forall. intros y Hy.
    destruct (String.prefix "import " y) eqn:Ey; [|reflexivity].
    assert (existsb (String.prefix "import ") r = true)
      by (apply existsb_exists; exists y; split; assumption).
    congruence.
Qed.

Lemma fmt_no_sep s : no_sep (BaseGenerator.formatComponentName s) = true.
Proof.
  unfold BaseGenerator.formatComponentName.
  apply concat_no_sep. apply Forall_map.
  eapply Forall_impl; [|apply split_sep_pieces]. apply capitalize_no_sep.
Qed.

Lemma fmt_single w : no_sep w = true -> BaseGenerator.formatComponentName w = capitalize w.
Proof.
  intros Hw. unfold BaseGenerator.formatComponentName.
  rewrite <- (str_app_nil_r w) at 1. rewrite (split_sep_app w _ Hw). simpl.
  rewrite str_app_nil_r. reflexivity.
Qed.

(** X14. The component generator formats the name twice, so the file stem is the capitalised [formatComponentName] of the name: each word after the first loses its capital ('my-button' is written to src/components/Mybutton.tsx). *)
Theorem component_file_stem o :
  ComponentGenerator.generate o =
  BaseGenerator.getFilePath "src/components" o
    (capitalize (BaseGenerator.formatComponentName (BaseGenerator.name o)) ++ "."
     ++ BaseGenerator.getFileExtension o)%string /\
  ComponentGenerator.generate (BaseGenerator.mk "/p" "my-button" None None) =
  "/p/src/components/Mybutton.tsx".
Proof.
  split; [|reflexivity].
  unfold ComponentGenerator.generate, BaseGenerator.formatFileName.
  rewrite (fmt_single _ (fmt_no_sep _)). reflexivity.
Qed.

